(** * A model of the rule-validation engine ([src/rules.ts])

    The engine receives a JSON-decoded request [{rule, data}], checks its
    shape with a Joi schema, resolves [rule.field] inside [data] and applies
    one of five named conditions.  This file embeds [validate],
    [parseRequest], [indexOn], [containsValidator] and the [conditions]
    registry as Rocq functions, together with the fragment of the JavaScript
    language and of the Joi library they rely on, and proves the properties
    of the specification about them.  The handler of the route that calls
    the engine and the error handler of the server
    ([src/unnamed/part_000]) are embedded too.

    Conventions.
    - A JavaScript string is a sequence of code units; the model uses
      [string], that is code units below 256.
    - A JavaScript number is an IEEE double.  Nothing in the engine does
      arithmetic: numbers are only compared, printed and read.  The number
      type and these primitives are parameters of the development
      ([NumberOps]).
    - [undefined] is not a JSON value.  Where the code can meet it
      (an absent member, a failed lookup) the model uses [option] or the
      [lookup] type.
    - Objects and arrays of a JSON-decoded request are pairwise distinct
      references.
    - A member access finds the members a value has of its own, and those
      it inherits from the built-in prototypes ([toString], [constructor],
      ...).  Which names are inherited is a parameter ([Runtime]); what the
      engine does once [indexOn] has reached such a member is left open
      (the outcome [Builtin]).  The five names that the schema and
      [validate] read from a request ([rule], [data], [field], [condition],
      [condition_value]) are names of no built-in prototype. *)

From Stdlib Require Import List String Ascii Bool ZArith Lia DecimalString.
Import ListNotations.
Local Open Scope string_scope.
Set Warnings "-register-all".

(** ** Strings *)

Module Str.

(** The double quote character, and a string wrapped in double quotes. *)
Definition dquote : string := String "034"%char EmptyString.
Definition quoted (s : string) : string := dquote ++ s ++ dquote.

(** [String.prototype.split] with a one-character separator. *)
Fixpoint split (sep : ascii) (s : string) : list string :=
  match s with
  | EmptyString => [EmptyString]
  | String c rest =>
      if Ascii.eqb c sep then EmptyString :: split sep rest
      else match split sep rest with
           | [] => [String c EmptyString]
           | h :: t => String c h :: t
           end
  end.

(** [Array.prototype.join]. *)
Fixpoint join (sep : string) (l : list string) : string :=
  match l with
  | [] => EmptyString
  | [x] => x
  | x :: rest => x ++ sep ++ join sep rest
  end.

(** White space and line terminators, as [trim] and [parseInt] skip them:
    TAB, LF, VT, FF, CR, SP and NBSP among the code units below 256. *)
Definition is_space (c : ascii) : bool :=
  let n := nat_of_ascii c in
  ((9 <=? n) && (n <=? 13))%nat || (n =? 32)%nat || (n =? 160)%nat.

Fixpoint ltrim (s : string) : string :=
  match s with
  | EmptyString => EmptyString
  | String c rest => if is_space c then ltrim rest else s
  end.

Fixpoint rev (s : string) : string :=
  match s with
  | EmptyString => EmptyString
  | String c rest => rev rest ++ String c EmptyString
  end.

(** [String.prototype.trim]. *)
Definition trim (s : string) : string := rev (ltrim (rev (ltrim s))).

(** A string made of white space only (the empty string included). *)
Fixpoint blank (s : string) : bool :=
  match s with
  | EmptyString => true
  | String c rest => is_space c && blank rest
  end.

(** [String.prototype.includes] with one argument, already a string. *)
Fixpoint includes (s sub : string) : bool :=
  String.prefix sub s ||
  match s with
  | EmptyString => false
  | String _ rest => includes rest sub
  end.

(** The character at a position, as a one-character string. *)
Definition char_at (s : string) (i : nat) : option string :=
  option_map (fun c => String c EmptyString) (String.get i s).

Definition digit (c : ascii) : option Z :=
  let n := nat_of_ascii c in
  if ((48 <=? n) && (n <=? 57))%nat then Some (Z.of_nat (n - 48)) else None.

Definition hex_digit (c : ascii) : option Z :=
  let n := nat_of_ascii c in
  if ((48 <=? n) && (n <=? 57))%nat then Some (Z.of_nat (n - 48))
  else if ((97 <=? n) && (n <=? 102))%nat then Some (Z.of_nat (n - 87))
  else if ((65 <=? n) && (n <=? 70))%nat then Some (Z.of_nat (n - 55))
  else None.

(** The value of the longest prefix of [s] made of digits of the radix,
    continuing from [acc]; [seen] tells whether a digit was read. *)
Fixpoint digits (radix : Z) (dig : ascii -> option Z) (s : string)
                (seen : bool) (acc : Z) : option Z :=
  match s with
  | EmptyString => if seen then Some acc else None
  | String c rest =>
      match dig c with
      | Some d => digits radix dig rest true (radix * acc + d)
      | None => if seen then Some acc else None
      end
  end.

(** [Number.parseInt] with one argument; [None] is NaN.  Leading white
    space is skipped, a sign is read, [0x] or [0X] selects radix 16, and the
    longest prefix of digits is the value. *)
Definition parseInt (s : string) : option Z :=
  let s := ltrim s in
  let '(sign, s) :=
    match s with
    | String "-" rest => ((-1)%Z, rest)
    | String "+" rest => (1%Z, rest)
    | _ => (1%Z, s)
    end in
  let magnitude :=
    match s with
    | String "0" (String "x" rest) | String "0" (String "X" rest) =>
        digits 16 hex_digit rest false 0
    | _ => digits 10 digit s false 0
    end in
  option_map (Z.mul sign) magnitude.

(** A string made of decimal digits only, and at least one. *)
Definition decimal (s : string) : option Z :=
  match s with
  | EmptyString => None
  | _ => (fix all (s : string) (acc : Z) : option Z :=
            match s with
            | EmptyString => Some acc
            | String c rest =>
                match digit c with
                | Some d => all rest (10 * acc + d)%Z
                | None => None
                end
            end) s 0%Z
  end.

(** A property key that is an array index: decimal digits, no leading
    zero other than the key [0] itself. *)
Definition index_of_key (k : string) : option nat :=
  match k with
  | String "0" EmptyString => Some O
  | String "0" _ => None
  | _ => option_map Z.to_nat (decimal k)
  end.

(** The decimal form of an integer. *)
Definition of_Z (z : Z) : string := NilZero.string_of_int (Z.to_int z).

End Str.


(** ** Numbers

    The primitives of the number type that the engine reaches: the literals
    0 and 1 and array and string lengths ([num_of_nat]), [===] and [<] on
    numbers, ToNumber on a string ([None] is NaN) and ToString on a
    number. *)

Class NumberOps : Type := {
  number : Type;
  num_of_nat : nat -> number;
  num_eqb : number -> number -> bool;
  num_ltb : number -> number -> bool;
  num_of_string : string -> option number;
  num_to_string : number -> string
}.

(** ** JSON-decoded values

    The members of an object are listed in own-property order. *)

Inductive value {N : NumberOps} : Type :=
| VNull
| VBool (b : bool)
| VNum (n : number)
| VStr (s : string)
| VArr (items : list value)
| VObj (members : list (string * value)).

Fixpoint assoc {A : Type} (k : string) (l : list (string * A)) : option A :=
  match l with
  | [] => None
  | (k', a) :: rest => if String.eqb k k' then Some a else assoc k rest
  end.

Definition has_key {A : Type} (k : string) (l : list (string * A)) : bool :=
  match assoc k l with Some _ => true | None => false end.

(** What a member access [v?.[k]] finds: a JSON value, [undefined], or a
    member that the value inherits from a built-in prototype of the
    runtime (a method such as [toString], [constructor], ...). *)
Inductive lookup {N : NumberOps} : Type :=
| Found (v : value)
| Undefined
| Inherited.

(** The runtime: the number primitives, and which names each value
    inherits from the built-in prototypes. *)
Class Runtime : Type := {
  numbers :: NumberOps;
  inherited : value -> string -> bool
}.

(** ** Completions

    An evaluation returns, throws, or is left open ([Builtin]).  It is
    left open when it reaches a member of a built-in prototype, after which
    what happens is up to the runtime, and when [undefined] would enter a
    comparison or an outcome in the place of a part of the rule. *)

Inductive js_error : Type := TypeError.

Inductive outcome (A : Type) : Type :=
| Returns (a : A)
| Throws (e : js_error)
| Builtin.
Arguments Returns {A} a.
Arguments Throws {A} e.
Arguments Builtin {A}.

Definition bind {A B : Type} (m : outcome A) (k : A -> outcome B) : outcome B :=
  match m with
  | Returns a => k a
  | Throws e => Throws e
  | Builtin => Builtin
  end.

Notation "x <- m ;; k" := (bind m (fun x => k))
  (at level 61, m at next level, right associativity).

(** ** The JavaScript operators the engine uses *)

Section Operators.
Context {N : NumberOps}.

(** [a === b].  Two objects or arrays are equal when they are the same
    reference, which two parts of a decoded request never are. *)
Definition strict_eq (a b : value) : bool :=
  match a, b with
  | VNull, VNull => true
  | VBool x, VBool y => Bool.eqb x y
  | VNum x, VNum y => num_eqb x y
  | VStr x, VStr y => String.eqb x y
  | _, _ => false
  end.

(** ToString.  An array prints its items joined by commas, [null] items
    as the empty string.  An object prints through the [toString] it
    finds: the inherited one gives ["[object Object]"]; a member of its own
    named [toString] is a JSON value, not a function, and the conversion
    throws. *)
Fixpoint to_string (v : value) : outcome string :=
  match v with
  | VNull => Returns "null"
  | VBool true => Returns "true"
  | VBool false => Returns "false"
  | VNum n => Returns (num_to_string n)
  | VStr s => Returns s
  | VArr items =>
      (fix join (l : list value) : outcome string :=
         match l with
         | [] => Returns ""
         | x :: rest =>
             s <- match x with VNull => Returns "" | _ => to_string x end ;;
             match rest with
             | [] => Returns s
             | _ => r <- join rest ;; Returns (s ++ "," ++ r)
             end
         end) items
  | VObj members =>
      if has_key "toString" members then Throws TypeError
      else Returns "[object Object]"
  end.

(** ToPrimitive: primitives are kept, arrays and objects are printed. *)
Definition to_primitive (v : value) : outcome value :=
  match v with
  | VArr _ | VObj _ => s <- to_string v ;; Returns (VStr s)
  | _ => Returns v
  end.

(** The values that convert: everything but an object that has a member
    of its own named [toString], and an array whose printing meets one. *)
Fixpoint printable (v : value) : bool :=
  match v with
  | VArr items => forallb printable items
  | VObj members => negb (has_key "toString" members)
  | _ => true
  end.

(** ToNumber on a primitive; [None] is NaN. *)
Definition to_number (p : value) : option number :=
  match p with
  | VNull => Some (num_of_nat 0)
  | VBool b => Some (num_of_nat (if b then 1 else 0))
  | VNum n => Some n
  | VStr s => num_of_string s
  | _ => None
  end.

(** The comparison behind [<], [>], [<=] and [>=]: [Some b] when the
    operands compare, [None] (undefined) when one of them is NaN.  Two
    strings compare by code units, anything else as numbers. *)
Definition less_than (x y : value) : outcome (option bool) :=
  px <- to_primitive x ;;
  py <- to_primitive y ;;
  match px, py with
  | VStr a, VStr b => Returns (Some (String.ltb a b))
  | _, _ =>
      match to_number px, to_number py with
      | Some a, Some b => Returns (Some (num_ltb a b))
      | _, _ => Returns None
      end
  end.

(** [value?.[index]] for a numeric index. *)
Definition element_at (v : value) (i : Z) : option value :=
  match v with
  | VStr s => if (i <? 0)%Z then None else option_map VStr (Str.char_at s (Z.to_nat i))
  | VArr items => if (i <? 0)%Z then None else nth_error items (Z.to_nat i)
  | VObj members => assoc (Str.of_Z i) members
  | _ => None
  end.

(** [value.includes(element)].  Strings search for the printed element,
    arrays compare each item with the element; no other value has a
    method of that name. *)
Definition includes (v element : value) : outcome bool :=
  match v with
  | VStr s => e <- to_string element ;; Returns (Str.includes s e)
  | VArr items => Returns (existsb (fun x => strict_eq x element) items)
  | _ => Throws TypeError
  end.

End Operators.

(** ** The conditions ([src/rules.ts], lines 16 to 43) *)

Module Cond.
Inductive t : Type := eq | neq | gt | gte | contains.

Definition name (c : t) : string :=
  match c with
  | eq => "eq" | neq => "neq" | gt => "gt" | gte => "gte"
  | contains => "contains"
  end.

(** [Object.keys(conditions)]. *)
Definition keys : list string := ["eq"; "neq"; "gt"; "gte"; "contains"].

Definition of_name (s : string) : option t :=
  if String.eqb s "eq" then Some eq
  else if String.eqb s "neq" then Some neq
  else if String.eqb s "gt" then Some gt
  else if String.eqb s "gte" then Some gte
  else if String.eqb s "contains" then Some contains
  else None.
End Cond.

Section Conditions.
Context {N : NumberOps}.

(** The third argument: [None] when the caller passes two arguments,
    [Some None] for NaN, [Some (Some i)] for a number. *)
Definition containsValidator (value element : value)
                             (index : option (option Z)) : outcome bool :=
  match index with
  | Some (Some i) =>
      Returns (match element_at value i with
               | Some x => strict_eq x element
               | None => false
               end)
  | _ => includes value element
  end.

Definition conditions (c : Cond.t) (value other : value)
                      (index : option (option Z)) : outcome bool :=
  match c with
  | Cond.eq => Returns (strict_eq value other)
  | Cond.neq => Returns (negb (strict_eq value other))
  | Cond.gt =>
      r <- less_than other value ;;
      Returns (match r with Some true => true | _ => false end)
  | Cond.gte =>
      r <- less_than value other ;;
      Returns (match r with Some false => true | _ => false end)
  | Cond.contains => containsValidator value other index
  end.

End Conditions.

(** ** The Joi schemas ([src/rules.ts], lines 45 to 71)

    Joi is a library.  The part the engine uses is modelled here after its
    documented behaviour under the default options ([abortEarly],
    [presence: "optional"], unknown keys forbidden): the types [any],
    [string], [array], [object], [alternatives], the rule [valid], the
    flag [exist] and custom [messages].  Validation reports the first
    error: its path, its code and its message.

    An object that has keys to check is validated on a shallow copy made by
    assignment.  Assigning the member named [__proto__] sets the prototype
    of the copy instead of adding a member: the copy has no key of that
    name, and when the value assigned is an object, the copy inherits its
    members.  (An array assigned so gives the copy indices and [length],
    none of which is a key of the schemas below; any other value is
    ignored.) *)

Module Joi.

Record detail : Type := { path : list string; type : string; message : string }.

(** Custom messages by error code; the first entry for a code wins. *)
Definition message_table : Type := list (string * string).

Record flags : Type := { required : bool; custom : message_table }.

Inductive schema : Type :=
| TAny (f : flags)
| TString (f : flags)
| TValid (allowed : list string) (f : flags)
| TArray (f : flags)
| TObject (keys : option (list (string * schema))) (f : flags)
| TAlternatives (alts : list schema) (f : flags).

Definition flags_of (s : schema) : flags :=
  match s with
  | TAny f | TString f | TValid _ f | TArray f | TObject _ f
  | TAlternatives _ f => f
  end.

Definition with_flags (s : schema) (f : flags) : schema :=
  match s with
  | TAny _ => TAny f
  | TString _ => TString f
  | TValid a _ => TValid a f
  | TArray _ => TArray f
  | TObject k _ => TObject k f
  | TAlternatives a _ => TAlternatives a f
  end.

(** The label of an error: the path joined by dots, or [value] at the
    root; it is printed between double quotes. *)
Definition label (p : list string) : string :=
  let l := fold_left
             (fun acc seg =>
                (if String.eqb acc "" then "" else acc ++ ".") ++ seg)
             p "" in
  Str.quoted (if String.eqb l "" then "value" else l).

(** An error of the given code: the custom message when there is one,
    the library's text otherwise. *)
Definition report (prefs : message_table) (p : list string) (code : string)
                  (text : string) : detail :=
  {| path := p;
     type := code;
     message := match assoc code prefs with
                | Some m => m
                | None => label p ++ " " ++ text
                end |}.

(** Whether a code is the [base] error of a type ([string.base], ...). *)
Definition is_base (code : string) : bool :=
  match Str.split "." code with
  | _ :: second :: _ => String.eqb second "base"
  | _ => false
  end.

Definition bracketed (l : list string) : string :=
  "[" ++ Str.join ", " l ++ "]".

Section Validate.
Context {N : NumberOps}.

(** What [alternatives] reports when no alternative matched, from the
    errors of the alternatives (given with their types). *)
Definition unmatched (prefs : message_table) (p : list string)
                     (failures : list (string * detail)) : detail :=
  match failures with
  | [] => report prefs p "alternatives.any"
            "does not match any of the allowed types"
  | [(_, d)] => d
  | _ =>
      let simple (f : string * detail) :=
        (List.length (path (snd f)) =? List.length p)%nat &&
        (String.eqb (type (snd f)) "any.only" || is_base (type (snd f))) in
      match filter (fun f => negb (simple f)) failures with
      | [] => report prefs p "alternatives.types"
                ("must be one of " ++ bracketed (map fst failures))
      | [(_, d)] => d
      | _ => report prefs p "alternatives.match"
               "does not match any of the allowed types"
      end
  end.

Definition type_name (s : schema) : string :=
  match s with
  | TAny _ | TValid _ _ => "any"
  | TString _ => "string"
  | TArray _ => "array"
  | TObject _ _ => "object"
  | TAlternatives _ _ => "alternatives"
  end.

(** The keys of the copy of an object: its members but [__proto__]. *)
Definition own_keys (members : list (string * value)) : list (string * value) :=
  filter (fun m => negb (String.eqb (fst m) "__proto__")) members.

(** [copy[k]] for a key [k] of a schema: a member of the copy, or else a
    member of the object that the copy has for a prototype. *)
Definition read (members : list (string * value)) (k : string) : option value :=
  match assoc k (own_keys members) with
  | Some v => Some v
  | None =>
      match assoc "__proto__" members with
      | Some (VObj inherited_members) => assoc k inherited_members
      | _ => None
      end
  end.

(** [schema.validate(v)] at a given path, with the messages inherited
    from the enclosing schemas; [v = None] is [undefined], the value of
    an absent key.  The result is the first error, if any. *)
Fixpoint validate_at (s : schema) (outer : message_table) (p : list string)
                     (v : option value) {struct s} : option detail :=
  let prefs := (custom (flags_of s) ++ outer)%list in
  match v with
  | None =>
      if required (flags_of s)
      then Some (report prefs p "any.required" "is required")
      else None
  | Some x =>
      match s with
      | TAny _ => None
      | TValid allowed _ =>
          match x with
          | VStr c =>
              if existsb (String.eqb c) allowed then None
              else Some (report prefs p "any.only"
                           ("must be one of " ++ bracketed allowed))
          | _ => Some (report prefs p "any.only"
                         ("must be one of " ++ bracketed allowed))
          end
      | TString _ =>
          match x with
          | VStr EmptyString =>
              Some (report prefs p "string.empty" "is not allowed to be empty")
          | VStr _ => None
          | _ => Some (report prefs p "string.base" "must be a string")
          end
      | TArray _ =>
          match x with
          | VArr _ => None
          | _ => Some (report prefs p "array.base" "must be an array")
          end
      | TObject keys _ =>
          match x with
          | VObj members =>
              match keys with
              | None => None
              | Some ks =>
                  let fix children (l : list (string * schema)) : option detail :=
                    match l with
                    | [] => None
                    | (k, child) :: rest =>
                        match validate_at child prefs (p ++ [k])%list (read members k) with
                        | Some d => Some d
                        | None => children rest
                        end
                    end in
                  match children ks with
                  | Some d => Some d
                  | None =>
                      match filter (fun m => negb (has_key (fst m) ks))
                                   (own_keys members) with
                      | [] => None
                      | (k, _) :: _ =>
                          Some (report prefs (p ++ [k])%list "object.unknown"
                                  "is not allowed")
                      end
                  end
              end
          | _ => Some (report prefs p "object.base" "must be of type object")
          end
      | TAlternatives alts _ =>
          let fix attempt (l : list schema) : option (list (string * detail)) :=
            match l with
            | [] => Some []
            | a :: rest =>
                match validate_at a prefs p (Some x) with
                | None => None
                | Some d =>
                    match attempt rest with
                    | None => None
                    | Some ds => Some ((type_name a, d) :: ds)
                    end
                end
            end in
          match attempt alts with
          | None => None
          | Some failures => Some (unmatched prefs p failures)
          end
      end
  end.

(** [schema.validate(v).error?.details[0]]. *)
Definition validate (s : schema) (v : value) : option detail :=
  validate_at s [] [] (Some v).

End Validate.

(** The schema builders, named as in the library. *)
Definition no_flags : flags := {| required := false; custom := [] |}.
Definition any : schema := TAny no_flags.
Definition valid (allowed : list string) : schema := TValid allowed no_flags.
Definition array : schema := TArray no_flags.
Definition object (keys : option (list (string * schema))) : schema :=
  TObject keys no_flags.
Definition alternatives (alts : list schema) : schema :=
  TAlternatives alts no_flags.
Definition exist (s : schema) : schema :=
  with_flags s {| required := true; custom := custom (flags_of s) |}.
Definition messages (m : message_table) (s : schema) : schema :=
  with_flags s {| required := required (flags_of s);
                  custom := (m ++ custom (flags_of s))%list |}.
Definition string : schema := TString no_flags.

End Joi.

Definition ruleSchema : Joi.schema :=
  Joi.messages [("object.base", "rule should be an object.")]
    (Joi.object (Some
      [("field",
        Joi.messages [("any.required", "rule.field is required");
                      ("string.base", "rule.field should be a string")]
          (Joi.exist Joi.string));
       ("condition",
        Joi.messages
          [("any.only",
            "rule.condition must be one of eq, neq, gt, gte, or contains");
           ("any.required", "rule.condition is required")]
          (Joi.exist (Joi.valid Cond.keys)));
       ("condition_value",
        Joi.messages [("any.required", "rule.condition_value is required")]
          (Joi.exist Joi.any))])).

Definition dataSchema : Joi.schema :=
  Joi.alternatives [Joi.array; Joi.object None; Joi.string].

Definition validatorSchema : Joi.schema :=
  Joi.object (Some
    [("rule",
      Joi.messages [("any.required", "rule is required.")]
        (Joi.exist ruleSchema));
     ("data",
      Joi.messages
        [("any.required", "data is required.");
         ("alternatives.types",
          "data should be an array, an object, or a string.")]
        (Joi.exist dataSchema))]).

(** ** The engine ([src/rules.ts], lines 73 to 168) *)

Inductive EarlyAbortReason : Type :=
| invalid_schema
| type_error
| missing_required_field
| missing_data_field.

Record EarlyAbort : Type := {
  abort_type : EarlyAbortReason;
  abort_value : string
}.

Section Engine.
Context {R : Runtime}.

Record Rule : Type := {
  rule_field : string;
  rule_condition : Cond.t;
  rule_condition_value : value
}.

Record Request : Type := { data : value; rule : Rule }.

Record ValidationCompleted : Type := {
  error : bool;
  field : string;
  field_value : value;
  condition : Cond.t;
  condition_value : value
}.

Inductive ValidationResult : Type :=
| Aborted (a : EarlyAbort)
| Completed (c : ValidationCompleted).

(** [parseRequest]: the first error of the schema, sorted into an abort;
    otherwise the request itself. *)
Definition parseRequest (req : value) : EarlyAbort + value :=
  match Joi.validate validatorSchema req with
  | Some details =>
      let path := Str.join "," (Joi.path details) in
      if existsb (String.eqb path) ["data"; "rule"]
         && String.eqb (Joi.type details) "any.required"
      then inl {| abort_type := missing_required_field;
                  abort_value := Joi.message details |}
      else if String.eqb path "" && String.eqb (Joi.type details) "object.base"
      then inl {| abort_type := invalid_schema;
                  abort_value := "Invalid JSON payload passed." |}
      else if String.eqb (Joi.type details) "any.required"
      then inl {| abort_type := missing_required_field;
                  abort_value := Joi.message details |}
      else inl {| abort_type := type_error;
                  abort_value := Joi.message details |}
  | None => inr req
  end.

(** The cast [req as Request]: the members that [validate] reads from a
    request that passed the schema.  The schema was checked on a copy of
    the request; the request itself has the parts that the cast reads
    unless a required one reached the copy through a member [__proto__]
    ([parseRequest_shape]). *)
Definition as_request (req : value) : option Request :=
  match req with
  | VObj members =>
      match assoc "data" members, assoc "rule" members with
      | Some d, Some (VObj r) =>
          match assoc "field" r, assoc "condition" r,
                assoc "condition_value" r with
          | Some (VStr f), Some (VStr c), Some cv =>
              match Cond.of_name c with
              | Some c => Some {| data := d;
                                  rule := {| rule_field := f;
                                             rule_condition := c;
                                             rule_condition_value := cv |} |}
              | None => None
              end
          | _, _, _ => None
          end
      | _, _ => None
      end
  | _ => None
  end.

(** The members a value has of its own: those of an object, the items
    and the length of an array, the characters and the length of a
    string. *)
Definition own_member (v : value) (k : string) : option value :=
  match v with
  | VObj members => assoc k members
  | VArr items =>
      if String.eqb k "length" then Some (VNum (num_of_nat (List.length items)))
      else match Str.index_of_key k with
           | Some i => nth_error items i
           | None => None
           end
  | VStr s =>
      if String.eqb k "length" then Some (VNum (num_of_nat (String.length s)))
      else match Str.index_of_key k with
           | Some i => option_map VStr (Str.char_at s i)
           | None => None
           end
  | _ => None
  end.

(** [v[k]] on a value other than [null]. *)
Definition member (v : value) (k : string) : lookup :=
  match own_member v k with
  | Some x => Found x
  | None => if inherited v k then Inherited else Undefined
  end.

(** [prev?.[current]].  What is reached from a built-in member is left
    to the runtime. *)
Definition optional_member (prev : lookup) (current : string) : lookup :=
  match prev with
  | Found VNull => Undefined
  | Found v => member v current
  | Undefined => Undefined
  | Inherited => Inherited
  end.

Definition indexOn (obj : value) (path : string) : lookup :=
  let parts := Str.split "." path in
  let parts := filter (fun v => negb (String.eqb (Str.trim v) "")) parts in
  fold_left optional_member parts (Found obj).

Definition is_container (v : value) : bool :=
  match v with
  | VStr _ | VArr _ => true
  | _ => false
  end.

(** [validate] on a request that passed the schema but lacks a part of
    its own; an absent part reads as [undefined].  Without a rule,
    [rule.condition] and [rule.field] throw.  Without a condition, the
    call of [conditions[undefined]] throws; it is reached unless the field
    value is [undefined] first.  Without a field, [indexOn] throws on
    [undefined.trim], and without data it resolves nothing.  Where the
    comparison would run with an [undefined] field or condition value, the
    outcome is left open. *)
Definition validate_incomplete (req : value) : outcome ValidationResult :=
  match req with
  | VObj members =>
      match assoc "rule" members with
      | Some (VObj r) =>
          let missing (f : string) :=
            Returns (Aborted
              {| abort_type := missing_data_field;
                 abort_value := "field " ++ f ++ " is missing from data." |}) in
          let call :=
            match assoc "condition" r with
            | None => Throws TypeError
            | Some _ => Builtin
            end in
          match assoc "data" members with
          | Some data =>
              if is_container data then call
              else
                match assoc "field" r with
                | Some (VStr f) =>
                    match indexOn data f with
                    | Undefined => missing f
                    | Inherited => Builtin
                    | Found _ => call
                    end
                | _ => Throws TypeError
                end
          | None =>
              match assoc "field" r with
              | Some (VStr f) => missing f
              | _ => Throws TypeError
              end
          end
      | _ => Throws TypeError
      end
  | _ => Throws TypeError
  end.

(** [validate].  The local [comparison] is assigned twice: on line 106,
    for string and array data, with the parsed field as index, and on
    line 120, for every resolved value, without index; the result is
    built from the second assignment. *)
Definition validate (req : value) : outcome ValidationResult :=
  match parseRequest req with
  | inl abort => Returns (Aborted abort)
  | inr result =>
      match as_request result with
      | None => validate_incomplete result
      | Some {| data := data; rule := rule |} =>
          dataFieldValue <-
            (if is_container data then
               comparison <- conditions (rule_condition rule) data
                               (rule_condition_value rule)
                               (Some (Str.parseInt (rule_field rule))) ;;
               Returns (Found data)
             else Returns (indexOn data (rule_field rule))) ;;
          match dataFieldValue with
          | Undefined =>
              Returns (Aborted
                {| abort_type := missing_data_field;
                   abort_value := "field " ++ rule_field rule
                                    ++ " is missing from data." |})
          | Inherited => Builtin
          | Found v =>
              comparison <- conditions (rule_condition rule) v
                              (rule_condition_value rule) None ;;
              Returns (Completed
                {| condition := rule_condition rule;
                   condition_value := rule_condition_value rule;
                   error := negb comparison;
                   field := rule_field rule;
                   field_value := v |})
          end
      end
  end.

End Engine.

(** ** The specification's readings

    Definitions that follow the words of the specification, to be
    compared with the engine. *)

Section Specification.
Context {R : Runtime}.

Definition abort (t : EarlyAbortReason) (m : string) : EarlyAbort :=
  {| abort_type := t; abort_value := m |}.

Definition is_object (v : value) : bool :=
  match v with
  | VObj _ => true
  | _ => false
  end.

(** Whether a value is one of the five registered condition names. *)
Definition registered (c : value) : bool :=
  match c with
  | VStr s => existsb (String.eqb s) Cond.keys
  | _ => false
  end.

(** [rule.condition] of a raw input, when [rule] is an object that has
    the member. *)
Definition condition_member (req : value) : option value :=
  match req with
  | VObj members =>
      match assoc "rule" members with
      | Some (VObj r) => assoc "condition" r
      | _ => None
      end
  | _ => None
  end.

(** Every violation of the request shape, in the priority order of the
    shape rules: a top level that is not an object; then [rule] (absent,
    not an object, its field, its condition, its condition value, members
    it should not have); then [data] (absent, of a wrong type); then
    members the request should not have.  The string type of the schema
    does not admit the empty string. *)
Definition unknown_members (known : list string)
                           (members : list (string * value)) : list (string * value) :=
  filter (fun m => negb (existsb (String.eqb (fst m)) known)) members.

Definition unknown_violations (p : list string) (known : list string)
                              (members : list (string * value)) : list EarlyAbort :=
  map (fun m => abort type_error
                  (Joi.label (p ++ [fst m])%list ++ " is not allowed"))
      (unknown_members known members).

Definition field_violations (r : list (string * value)) : list EarlyAbort :=
  match assoc "field" r with
  | None => [abort missing_required_field "rule.field is required"]
  | Some (VStr EmptyString) =>
      [abort type_error
         (Joi.label ["rule"; "field"] ++ " is not allowed to be empty")]
  | Some (VStr _) => []
  | Some _ => [abort type_error "rule.field should be a string"]
  end.

Definition condition_violations (r : list (string * value)) : list EarlyAbort :=
  match assoc "condition" r with
  | None => [abort missing_required_field "rule.condition is required"]
  | Some c =>
      if registered c then []
      else [abort type_error
              "rule.condition must be one of eq, neq, gt, gte, or contains"]
  end.

Definition condition_value_violations (r : list (string * value)) : list EarlyAbort :=
  match assoc "condition_value" r with
  | None => [abort missing_required_field "rule.condition_value is required"]
  | Some _ => []
  end.

Definition rule_violations (members : list (string * value)) : list EarlyAbort :=
  match assoc "rule" members with
  | None => [abort missing_required_field "rule is required."]
  | Some (VObj r) =>
      (field_violations r ++ condition_violations r
       ++ condition_value_violations r
       ++ unknown_violations ["rule"] ["field"; "condition"; "condition_value"] r)%list
  | Some _ => [abort type_error "rule should be an object."]
  end.

Definition data_violations (members : list (string * value)) : list EarlyAbort :=
  match assoc "data" members with
  | None => [abort missing_required_field "data is required."]
  | Some (VArr _) | Some (VObj _) => []
  | Some (VStr EmptyString) =>
      [abort type_error (Joi.label ["data"] ++ " is not allowed to be empty")]
  | Some (VStr _) => []
  | Some _ =>
      [abort type_error "data should be an array, an object, or a string."]
  end.

Definition violations (req : value) : list EarlyAbort :=
  match req with
  | VObj members =>
      (rule_violations members ++ data_violations members
       ++ unknown_violations [] ["rule"; "data"] members)%list
  | _ => [abort invalid_schema "Invalid JSON payload passed."]
  end.

(** A request in which neither the request nor its rule has a member of
    its own named [__proto__]. *)
Definition proto_free (req : value) : bool :=
  match req with
  | VObj members =>
      negb (has_key "__proto__" members)
      && match assoc "rule" members with
         | Some (VObj r) => negb (has_key "__proto__" r)
         | _ => true
         end
  | _ => true
  end.

(** The violations as the schema finds them: the same checks in the same
    order, made on what the library's copy of the request and of its rule
    holds ([Joi.read], [Joi.own_keys]). *)
Definition field_violations_of (f : option value) : list EarlyAbort :=
  match f with
  | None => [abort missing_required_field "rule.field is required"]
  | Some (VStr EmptyString) =>
      [abort type_error
         (Joi.label ["rule"; "field"] ++ " is not allowed to be empty")]
  | Some (VStr _) => []
  | Some _ => [abort type_error "rule.field should be a string"]
  end.

Definition condition_violations_of (c : option value) : list EarlyAbort :=
  match c with
  | None => [abort missing_required_field "rule.condition is required"]
  | Some c =>
      if registered c then []
      else [abort type_error
              "rule.condition must be one of eq, neq, gt, gte, or contains"]
  end.

Definition condition_value_violations_of (cv : option value) : list EarlyAbort :=
  match cv with
  | None => [abort missing_required_field "rule.condition_value is required"]
  | Some _ => []
  end.

Definition rule_violations_of (rule : option value) : list EarlyAbort :=
  match rule with
  | None => [abort missing_required_field "rule is required."]
  | Some (VObj r) =>
      (field_violations_of (Joi.read r "field")
       ++ condition_violations_of (Joi.read r "condition")
       ++ condition_value_violations_of (Joi.read r "condition_value")
       ++ unknown_violations ["rule"] ["field"; "condition"; "condition_value"]
            (Joi.own_keys r))%list
  | Some _ => [abort type_error "rule should be an object."]
  end.

Definition data_violations_of (d : option value) : list EarlyAbort :=
  match d with
  | None => [abort missing_required_field "data is required."]
  | Some (VArr _) | Some (VObj _) => []
  | Some (VStr EmptyString) =>
      [abort type_error (Joi.label ["data"] ++ " is not allowed to be empty")]
  | Some (VStr _) => []
  | Some _ =>
      [abort type_error "data should be an array, an object, or a string."]
  end.

Definition schema_violations (req : value) : list EarlyAbort :=
  match req with
  | VObj members =>
      (rule_violations_of (Joi.read members "rule")
       ++ data_violations_of (Joi.read members "data")
       ++ unknown_violations [] ["rule"; "data"] (Joi.own_keys members))%list
  | _ => [abort invalid_schema "Invalid JSON payload passed."]
  end.

(** The segments of a dotted path, as the specification words them
    (non-empty) and as the engine keeps them (not blank). *)
Definition nonempty_segments (path : string) : list string :=
  filter (fun v => negb (String.eqb v "")) (Str.split "." path).

Definition nonblank_segments (path : string) : list string :=
  filter (fun v => negb (Str.blank v)) (Str.split "." path).

(** Indexing a value by one key after the other. *)
Fixpoint resolve (v : value) (segments : list string) : lookup :=
  match segments with
  | [] => Found v
  | k :: rest =>
      match v with
      | VNull => Undefined
      | _ => match member v k with
             | Found x => resolve x rest
             | Undefined => Undefined
             | Inherited => Inherited
             end
      end
  end.

(** A key of the path is absent: the value reached before it is [null],
    or has no member of that name, neither its own nor inherited. *)
Inductive absent : value -> list string -> Prop :=
| absent_null (k : string) (rest : list string) :
    absent VNull (k :: rest)
| absent_here (v : value) (k : string) (rest : list string) :
    v <> VNull -> own_member v k = None -> inherited v k = false ->
    absent v (k :: rest)
| absent_below (v x : value) (k : string) (rest : list string) :
    v <> VNull -> own_member v k = Some x -> absent x rest ->
    absent v (k :: rest).

(** The check that [contains] is specified to make on a container: the
    item at the index when the field parses as a number, membership
    otherwise. *)
Definition contains_check (container element : value) (field : string)
  : outcome bool :=
  match Str.parseInt field with
  | Some i =>
      Returns (match element_at container i with
               | Some x => strict_eq x element
               | None => false
               end)
  | None => includes container element
  end.

(** Two outcomes of a comparison that differ at most in the echoed
    field: both complete, with the same error flag, field value, condition
    and condition value, or both throw the same error. *)
Definition same_but_field (o1 o2 : outcome ValidationResult) : Prop :=
  match o1, o2 with
  | Returns (Completed c1), Returns (Completed c2) =>
      error c1 = error c2 /\ field_value c1 = field_value c2 /\
      condition c1 = condition c2 /\ condition_value c1 = condition_value c2
  | Throws e1, Throws e2 => e1 = e2
  | _, _ => False
  end.

End Specification.

(** ** The route ([src/unnamed/part_000], lines 23 to 75)

    The handler of [POST /validate-rule] and the error handler of the
    server.  Fastify answers with status 200 what the handler returns and
    passes what it throws to the error handler; an error of its own body
    parser (a [SyntaxError], an empty JSON body) reaches the error handler
    without the handler being run.  The message of an error thrown inside
    [validate] is the runtime's; it is a parameter here. *)

Module Server.

Inductive Status : Type := status_error | status_success.

(** What the error handler reads from an error that is not a
    [FailedValidation]. *)
Record error_object : Type := {
  is_syntax_error : bool;
  code : option string;
  statusCode : option nat;
  error_message : string
}.

Section Route.
Context {R : Runtime}.
Variable message_of : js_error -> string.

Record ValidationResponse : Type := {
  message : string;
  status : Status;
  data : option ValidationCompleted
}.

(** [new FailedValidation(message, data)]: the status is ["error"], absent
    data becomes [null]. *)
Definition FailedValidation (message : string)
                            (data : option ValidationCompleted)
  : ValidationResponse :=
  {| message := message; status := status_error; data := data |}.

Inductive thrown : Type :=
| Failed (f : ValidationResponse)
| Error (e : error_object).

Inductive handler_result : Type :=
| Return (r : ValidationResponse)
| Throw (t : thrown)
| Unknown.

(** An error thrown by the engine: no [code], no [statusCode]. *)
Definition engine_error (e : js_error) : error_object :=
  {| is_syntax_error := false;
     code := None;
     statusCode := None;
     error_message := message_of e |}.

Definition handler (body : value) : handler_result :=
  match validate body with
  | Returns (Completed v) =>
      let status := if error v then status_error else status_success in
      let message :=
        "field " ++ field v ++ " "
        ++ (if error v then "failed validation" else "successfully validated")
        ++ "." in
      if error v then Throw (Failed (FailedValidation message (Some v)))
      else Return {| message := message; status := status; data := Some v |}
  | Returns (Aborted a) =>
      Throw (Failed (FailedValidation (abort_value a) None))
  | Throws e => Throw (Error (engine_error e))
  | Builtin => Unknown
  end.

Record reply : Type := { http_status : nat; payload : ValidationResponse }.

(** [x || d] on a status code: 0 and an absent code give the default. *)
Definition or_default (x : option nat) (d : nat) : nat :=
  match x with
  | Some (S n) => S n
  | _ => d
  end.

Definition errorHandler (error : thrown) : reply :=
  match error with
  | Error e =>
      if is_syntax_error e
         || match code e with
            | Some c => String.eqb c "FST_ERR_CTP_EMPTY_JSON_BODY"
            | None => false
            end
      then {| http_status := or_default (statusCode e) 400;
              payload := {| message := "Invalid JSON payload passed.";
                            status := status_error;
                            data := None |} |}
      else {| http_status := or_default (statusCode e) 500;
              payload := FailedValidation (error_message e) None |}
  | Failed f => {| http_status := 400; payload := f |}
  end.

(** The answer to [POST /validate-rule] with a decoded body. *)
Definition route (body : value) : option reply :=
  match handler body with
  | Return r => Some {| http_status := 200; payload := r |}
  | Throw t => Some (errorHandler t)
  | Unknown => None
  end.

End Route.
End Server.

(** ** Further notions used by the properties *)

(** A string that has a dot in it. *)
Fixpoint has_dot (s : string) : bool :=
  match s with
  | EmptyString => false
  | String c rest => Ascii.eqb c "." || has_dot rest
  end.

(** An array or an object: a value compared by reference. *)
Definition is_structure {N : NumberOps} (v : value) : bool :=
  match v with
  | VArr _ | VObj _ => true
  | _ => false
  end.

(** The values that the schema admits as data. *)
Definition admissible_data {N : NumberOps} (d : value) : bool :=
  match d with
  | VArr _ | VObj _ => true
  | VStr EmptyString => false
  | VStr _ => true
  | _ => false
  end.

(** ** Requests

    The request [{rule: {field, condition, condition_value}, data}]. *)

Definition request {N : NumberOps} (f c : string) (cv d : value) : value :=
  VObj [("rule", VObj [("field", VStr f);
                       ("condition", VStr c);
                       ("condition_value", cv)]);
        ("data", d)].

(** ** A runtime for the examples

    The integers stand for the numbers: ToNumber reads a decimal integer
    with an optional sign between white space (the empty string is 0), and
    ToString prints in decimal; a string that is a number in another
    notation (a fraction, an exponent, a hexadecimal literal, [Infinity])
    reads as [NaN] here.  Every value inherits the members of
    [Object.prototype]; an array, a string and a number inherit those of
    [Array.prototype], [String.prototype] and [Number.prototype] as well,
    by the names of ECMAScript 2019. *)

Definition integer_of_string (s : string) : option Z :=
  let s := Str.trim s in
  match s with
  | EmptyString => Some 0%Z
  | String "-" rest => option_map Z.opp (Str.decimal rest)
  | String "+" rest => Str.decimal rest
  | _ => Str.decimal s
  end.

Definition integer_numbers : NumberOps :=
  {| number := Z;
     num_of_nat := Z.of_nat;
     num_eqb := Z.eqb;
     num_ltb := Z.ltb;
     num_of_string := integer_of_string;
     num_to_string := Str.of_Z |}.

Definition object_prototype_names : list string :=
  ["constructor"; "__defineGetter__"; "__defineSetter__"; "hasOwnProperty";
   "__lookupGetter__"; "__lookupSetter__"; "isPrototypeOf";
   "propertyIsEnumerable"; "toString"; "valueOf"; "__proto__";
   "toLocaleString"].

Definition array_prototype_names : list string :=
  ["concat"; "copyWithin"; "entries"; "every"; "fill"; "filter"; "find";
   "findIndex"; "flat"; "flatMap"; "forEach"; "includes"; "indexOf"; "join";
   "keys"; "lastIndexOf"; "map"; "pop"; "push"; "reduce"; "reduceRight";
   "reverse"; "shift"; "slice"; "some"; "sort"; "splice"; "unshift";
   "values"].

Definition string_prototype_names : list string :=
  ["anchor"; "big"; "blink"; "bold"; "charAt"; "charCodeAt"; "codePointAt";
   "concat"; "endsWith"; "fixed"; "fontcolor"; "fontsize"; "includes";
   "indexOf"; "italics"; "lastIndexOf"; "link"; "localeCompare"; "match";
   "normalize"; "padEnd"; "padStart"; "repeat"; "replace"; "search";
   "slice"; "small"; "split"; "startsWith"; "strike"; "sub"; "substr";
   "substring"; "sup"; "toLocaleLowerCase"; "toLocaleUpperCase";
   "toLowerCase"; "toUpperCase"; "trim"; "trimEnd"; "trimLeft";
   "trimRight"; "trimStart"].

Definition number_prototype_names : list string :=
  ["toExponential"; "toFixed"; "toPrecision"].

Definition prototype_names (v : @value integer_numbers) : list string :=
  (match v with
   | VArr _ => array_prototype_names
   | VStr _ => string_prototype_names
   | VNum _ => number_prototype_names
   | _ => []
   end ++ object_prototype_names)%list.

Definition example_runtime : Runtime :=
  {| numbers := integer_numbers;
     inherited := fun v k => existsb (String.eqb k) (prototype_names v) |}.

(** Values of the test suite ([src/rules.spec.ts]). *)

Definition validRule : @value integer_numbers :=
  VObj [("condition", VStr "eq");
        ("condition_value", @VNum integer_numbers 2%Z);
        ("field", VStr "length")].

Definition validData : @value integer_numbers :=
  VObj [("length", @VNum integer_numbers 2%Z)].

Definition ships : @value integer_numbers :=
  VArr [VStr "The Nauvoo"; VStr "The Razorback"; VStr "The Roci"; VStr "Tycho"].

(** * Properties *)

Section Proofs.
Context {R : Runtime}.

(** ** The shape validator *)

Lemma of_name_name (c : Cond.t) : Cond.of_name (Cond.name c) = Some c.
Proof. destruct c; reflexivity. Qed.

Lemma has_key_existsb {A : Type} (k : string) (l : list (string * A)) :
  has_key k l = existsb (String.eqb k) (map fst l).
Proof.
  unfold has_key. induction l as [| [k' a] l IH]; cbn; [reflexivity |].
  destruct (String.eqb k k'); [reflexivity | exact IH].
Qed.

Lemma filter_unknown {B : Type} (ks : list (string * B)) (members : list (string * value)) :
  filter (fun m => negb (has_key (fst m) ks)) members =
  unknown_members (map fst ks) members.
Proof. apply filter_ext. intro m. now rewrite has_key_existsb. Qed.

(** [parseRequest] answers the first violation that the schema finds, and
    the request itself when there is none. *)
Lemma parseRequest_schema_violations (req : value) :
  parseRequest req =
  match schema_violations req with
  | [] => inr req
  | e :: _ => inl e
  end.
Proof.
  destruct req as [| b | n | s | items | members]; try reflexivity.
  unfold parseRequest, Joi.validate, schema_violations, rule_violations_of,
    data_violations_of, field_violations_of, condition_violations_of,
    condition_value_violations_of, unknown_violations.
  cbn -[filter unknown_members has_key Joi.read Joi.own_keys].
  destruct (Joi.read members "rule") as [[| b | n | s | items | r]|]; try reflexivity.
  rewrite !filter_unknown.
  cbn -[filter unknown_members has_key Joi.read Joi.own_keys].
  destruct (Joi.read r "field") as [[| b | n | [| c0 s0] | items |]|]; try reflexivity.
  destruct (Joi.read r "condition") as [c|]; [| reflexivity].
  destruct c as [| b | n | c | items | fs]; try reflexivity.
  cbn -[filter unknown_members has_key Joi.read Joi.own_keys].
  destruct ((c =? "eq") || _); [| reflexivity].
  destruct (Joi.read r "condition_value") as [cv|]; [| reflexivity].
  cbn -[filter unknown_members has_key Joi.read Joi.own_keys].
  destruct (unknown_members _ (Joi.own_keys r)) as [| [k v] unknown]; [| reflexivity].
  cbn -[filter unknown_members has_key Joi.read Joi.own_keys].
  destruct (Joi.read members "data") as [[| b | n | [| d0 ds] | items | fs]|];
   try reflexivity;
   cbn -[filter unknown_members has_key Joi.read Joi.own_keys];
   (destruct (unknown_members _ (Joi.own_keys members)) as [| [k v] unknown];
    [reflexivity|]);
   cbn; rewrite ?andb_false_r; reflexivity.
Qed.

Lemma parseRequest_inr (req r : value) :
  parseRequest req = inr r -> r = req /\ schema_violations req = [].
Proof.
  rewrite parseRequest_schema_violations.
  destruct (schema_violations req); [| discriminate].
  intro H. injection H as <-. split; reflexivity.
Qed.

(** Members other than [__proto__] are members of the copy, and there
    they come before those of the prototype. *)
Lemma assoc_own_keys (k : string) (members : list (string * value)) :
  k <> "__proto__" -> assoc k (Joi.own_keys members) = assoc k members.
Proof.
  intro Hk. unfold Joi.own_keys.
  induction members as [| [k' v] rest IH]; [reflexivity |].
  cbn [filter fst assoc]. destruct (String.eqb_spec k' "__proto__") as [-> | Hk'].
  - cbn [negb]. destruct (String.eqb_spec k "__proto__") as [E | _];
      [contradiction | exact IH].
  - cbn [negb assoc]. destruct (String.eqb k k'); [reflexivity | exact IH].
Qed.

Lemma read_shadow (k : string) (v : value) (members : list (string * value)) :
  k <> "__proto__" -> assoc k members = Some v -> Joi.read members k = Some v.
Proof.
  intros Hk H. unfold Joi.read. now rewrite (assoc_own_keys k members Hk), H.
Qed.

Lemma own_keys_id (members : list (string * value)) :
  has_key "__proto__" members = false -> Joi.own_keys members = members.
Proof.
  unfold has_key, Joi.own_keys.
  induction members as [| [k' v] rest IH]; [reflexivity |].
  cbn [assoc filter fst]. rewrite (String.eqb_sym k' "__proto__").
  destruct (String.eqb "__proto__" k'); [discriminate |].
  intro H. cbn [negb]. now rewrite (IH H).
Qed.

Lemma read_own (k : string) (members : list (string * value)) :
  has_key "__proto__" members = false -> Joi.read members k = assoc k members.
Proof.
  intro H. unfold Joi.read. rewrite (own_keys_id members H).
  unfold has_key in H.
  destruct (assoc k members); [reflexivity |].
  destruct (assoc "__proto__" members); [discriminate | reflexivity].
Qed.

(** Without members [__proto__] the copy is the request, and the schema
    finds the violations of the request shape. *)
Lemma schema_violations_proto_free (req : value) :
  proto_free req = true -> schema_violations req = violations req.
Proof.
  destruct req as [| b | n | s | items | members]; try reflexivity.
  unfold proto_free, schema_violations, violations.
  intro H. apply andb_prop in H as [Hm Hr]. apply negb_true_iff in Hm.
  rewrite !(read_own _ members Hm), (own_keys_id members Hm).
  f_equal.
  unfold rule_violations_of, rule_violations.
  destruct (assoc "rule" members) as [[| b | n | s | items | r]|]; try reflexivity.
  apply negb_true_iff in Hr.
  now rewrite !(read_own _ r Hr), (own_keys_id r Hr).
Qed.

Lemma parseRequest_first_violation (req : value) :
  proto_free req = true ->
  parseRequest req =
  match violations req with
  | [] => inr req
  | e :: _ => inl e
  end.
Proof.
  intro H. rewrite parseRequest_schema_violations.
  now rewrite (schema_violations_proto_free req H).
Qed.

Lemma registered_name (c : value) :
  registered c = true ->
  exists (s : string) (n : Cond.t), c = VStr s /\ Cond.of_name s = Some n.
Proof.
  destruct c as [| b | x | s | items | fs]; try discriminate.
  unfold registered, Cond.keys, Cond.of_name. cbn.
  intro H. exists s.
  destruct (s =? "eq"); [eauto |].
  destruct (s =? "neq"); [eauto |].
  destruct (s =? "gt"); [eauto |].
  destruct (s =? "gte"); [eauto |].
  destruct (s =? "contains"); [eauto | discriminate].
Qed.

(** A request that passed the schema and has its parts as members of its
    own. *)
Lemma parseRequest_shape (req r : value) (rq : Request) :
  parseRequest req = inr r ->
  as_request req = Some rq ->
  r = req /\
  rule_field (rule rq) <> "" /\
  data rq <> VStr "" /\
  (is_container (data rq) = true \/ is_object (data rq) = true).
Proof.
  intros H Hr. apply parseRequest_inr in H as [-> Hv]. split; [reflexivity |].
  destruct req as [| b | n | s | items | members]; try discriminate.
  cbn -[Joi.read Joi.own_keys] in Hv.
  apply app_eq_nil in Hv as [Hrule Hv]. apply app_eq_nil in Hv as [Hdata _].
  unfold as_request in Hr.
  destruct (assoc "data" members) as [d|] eqn:Ed; [| discriminate].
  destruct (assoc "rule" members) as [[| b | n | s | items | rl]|] eqn:Erule;
    try discriminate.
  destruct (assoc "field" rl) as [[| b | n | f | items | fs]|] eqn:Ef;
    try discriminate.
  destruct (assoc "condition" rl) as [[| b | n | c | items | fs]|] eqn:Ec;
    try discriminate.
  destruct (assoc "condition_value" rl) as [cv|] eqn:Ecv; [| discriminate].
  destruct (Cond.of_name c) as [cond|]; [| discriminate].
  injection Hr as <-. cbn [data rule rule_field].
  rewrite (read_shadow "rule" (VObj rl) members) in Hrule by (discriminate || exact Erule).
  rewrite (read_shadow "data" d members) in Hdata by (discriminate || exact Ed).
  unfold rule_violations_of in Hrule.
  apply app_eq_nil in Hrule as [Hf _].
  rewrite (read_shadow "field" (VStr f) rl) in Hf by (discriminate || exact Ef).
  repeat split.
  - destruct f; [discriminate Hf | discriminate].
  - destruct d as [| b | n | [| d0 ds] | items | fs]; discriminate.
  - destruct d as [| b | n | [| d0 ds] | items | fs]; try discriminate; auto.
Qed.

(** A request without members [__proto__] that passed the schema has
    every part as a member of its own. *)
Lemma parseRequest_parts (req r : value) :
  proto_free req = true ->
  parseRequest req = inr r ->
  exists rq : Request, as_request req = Some rq.
Proof.
  intros Hp H. rewrite (parseRequest_first_violation req Hp) in H.
  destruct (violations req) eqn:Hv; [| discriminate]. clear H.
  destruct req as [| b | n | s | items | members]; try discriminate.
  cbn in Hv.
  apply app_eq_nil in Hv as [Hrule Hv]. apply app_eq_nil in Hv as [Hdata _].
  unfold rule_violations in Hrule.
  destruct (assoc "rule" members) as [[| b | n | s | items | rl]|] eqn:Erule;
    try discriminate.
  apply app_eq_nil in Hrule as [Hf Hrule].
  apply app_eq_nil in Hrule as [Hc Hrule].
  apply app_eq_nil in Hrule as [Hcv _].
  unfold field_violations in Hf.
  destruct (assoc "field" rl) as [[| b | n | [| c0 f0] | items | fs]|] eqn:Ef;
    try discriminate.
  unfold condition_violations in Hc.
  destruct (assoc "condition" rl) as [c|] eqn:Ec; [| discriminate].
  destruct (registered c) eqn:Ereg; [| discriminate].
  destruct (registered_name c Ereg) as (name & cond & -> & Hname).
  unfold condition_value_violations in Hcv.
  destruct (assoc "condition_value" rl) as [cv|] eqn:Ecv; [| discriminate].
  unfold data_violations in Hdata.
  destruct (assoc "data" members) as [d|] eqn:Ed; [| discriminate].
  exists {| data := d;
            rule := {| rule_field := String c0 f0;
                       rule_condition := cond;
                       rule_condition_value := cv |} |}.
  unfold as_request. now rewrite Ed, Erule, Ef, Ec, Ecv, Hname.
Qed.

(** [validate] on an accepted request. *)
Lemma validate_accepted (req : value) (rq : Request) :
  parseRequest req = inr req -> as_request req = Some rq ->
  validate req =
  (dataFieldValue <-
     (if is_container (data rq) then
        comparison <- conditions (rule_condition (rule rq)) (data rq)
                        (rule_condition_value (rule rq))
                        (Some (Str.parseInt (rule_field (rule rq)))) ;;
        Returns (Found (data rq))
      else Returns (indexOn (data rq) (rule_field (rule rq)))) ;;
   match dataFieldValue with
   | Undefined =>
       Returns (Aborted (abort missing_data_field
                  ("field " ++ rule_field (rule rq) ++ " is missing from data.")))
   | Inherited => Builtin
   | Found v =>
       comparison <- conditions (rule_condition (rule rq)) v
                       (rule_condition_value (rule rq)) None ;;
       Returns (Completed
         {| condition := rule_condition (rule rq);
            condition_value := rule_condition_value (rule rq);
            error := negb comparison;
            field := rule_field (rule rq);
            field_value := v |})
   end).
Proof.
  intros Hp Hr. unfold validate. rewrite Hp, Hr. destruct rq as [d rl]. reflexivity.
Qed.
(** ** Strings: a trimmed segment is empty exactly when it is blank *)

Lemma ltrim_empty (s : string) : Str.ltrim s = "" <-> Str.blank s = true.
Proof.
  induction s as [| c s IH]; cbn; [tauto |].
  destruct (Str.is_space c); cbn; [exact IH |].
  split; discriminate.
Qed.

Lemma blank_ltrim (s : string) : Str.blank (Str.ltrim s) = Str.blank s.
Proof.
  induction s as [| c s IH]; cbn; [reflexivity |].
  destruct (Str.is_space c) eqn:E; cbn; [exact IH |].
  now rewrite E.
Qed.

Lemma blank_app (a b : string) :
  Str.blank (a ++ b) = Str.blank a && Str.blank b.
Proof.
  induction a as [| c a IH]; cbn; [reflexivity |].
  now rewrite IH, andb_assoc.
Qed.

Lemma blank_rev (s : string) : Str.blank (Str.rev s) = Str.blank s.
Proof.
  induction s as [| c s IH]; cbn; [reflexivity |].
  rewrite blank_app, IH. cbn. rewrite andb_true_r. apply andb_comm.
Qed.

Lemma rev_empty (s : string) : Str.rev s = "" <-> s = "".
Proof.
  destruct s as [| c s]; cbn; [tauto |].
  split; [| discriminate].
  destruct (Str.rev s); discriminate.
Qed.

Lemma trim_empty_blank (s : string) :
  String.eqb (Str.trim s) "" = Str.blank s.
Proof.
  unfold Str.trim.
  destruct (Str.blank s) eqn:E.
  - apply String.eqb_eq, rev_empty, ltrim_empty.
    now rewrite blank_rev, blank_ltrim.
  - apply String.eqb_neq. intro H.
    apply rev_empty, ltrim_empty in H.
    rewrite blank_rev, blank_ltrim in H. congruence.
Qed.

(** ** Field resolution *)

Lemma value_null_dec (v : value) : {v = VNull} + {v <> VNull}.
Proof. destruct v; [left; reflexivity | right; discriminate ..]. Qed.

Lemma fold_undefined (segments : list string) :
  fold_left optional_member segments Undefined = Undefined.
Proof. induction segments; cbn; auto. Qed.

Lemma fold_inherited (segments : list string) :
  fold_left optional_member segments Inherited = Inherited.
Proof. induction segments; cbn; auto. Qed.

Lemma fold_resolve (segments : list string) (v : value) :
  fold_left optional_member segments (Found v) = resolve v segments.
Proof.
  revert v. induction segments as [| k rest IH]; intro v; [reflexivity |].
  cbn [fold_left resolve].
  destruct v; cbn [optional_member];
    try (destruct (member _ k); [apply IH | apply fold_undefined | apply fold_inherited]).
  apply fold_undefined.
Qed.

Lemma indexOn_resolve (obj : value) (path : string) :
  indexOn obj path = resolve obj (nonblank_segments path).
Proof.
  unfold indexOn, nonblank_segments.
  rewrite (filter_ext (fun v => negb (String.eqb (Str.trim v) ""))
                      (fun v => negb (Str.blank v)))
    by (intro v; now rewrite trim_empty_blank).
  apply fold_resolve.
Qed.

Lemma member_found (v x : value) (k : string) :
  member v k = Found x <-> own_member v k = Some x.
Proof.
  unfold member. destruct (own_member v k).
  - split; intro H; injection H as <-; reflexivity.
  - destruct (inherited v k); split; discriminate.
Qed.

Lemma absent_resolve (v : value) (segments : list string) :
  absent v segments <-> resolve v segments = Undefined.
Proof.
  split.
  - induction 1 as [k rest | v k rest Hv Hown Hinh | v x k rest Hv Hown _ IH];
      cbn [resolve].
    + reflexivity.
    + unfold member. rewrite Hown, Hinh. now destruct v.
    + unfold member. rewrite Hown. now destruct v.
  - revert v. induction segments as [| k rest IH]; intros v H; [discriminate |].
    destruct (value_null_dec v) as [-> | Hv]; [constructor |].
    assert (Hm : match member v k with
                 | Found x => resolve x rest
                 | Undefined => Undefined
                 | Inherited => Inherited
                 end = Undefined) by (destruct v; [congruence | exact H ..]).
    unfold member in Hm.
    destruct (own_member v k) as [x |] eqn:Hown.
    + apply absent_below with x; auto.
    + destruct (inherited v k) eqn:Hinh; [discriminate |].
      now apply absent_here.
Qed.

(** ** Conversions *)

Lemma to_string_printable (v : value) :
  if printable v then exists s : string, to_string v = Returns s
  else to_string v = Throws TypeError.
Proof.
  revert v. fix IH 1. intros [| [|] | n | s | items | members]; cbn [printable];
    try (eexists; reflexivity).
  - cbn [to_string].
    induction items as [| x rest IHrest]; cbn [forallb]; [eexists; reflexivity |].
    specialize (IH x).
    assert (Hx : if printable x
                 then exists s, match x with
                                | VNull => Returns ""
                                | _ => to_string x
                                end = Returns s
                 else match x with
                      | VNull => Returns ""
                      | _ => to_string x
                      end = Throws TypeError).
    { destruct x; try exact IH. eexists; reflexivity. }
    clear IH.
    destruct (printable x); cbn [andb].
    + destruct Hx as [s ->]. cbn [bind].
      destruct rest as [| y rest']; [eexists; reflexivity |].
      destruct (forallb printable (y :: rest')).
      * destruct IHrest as [r ->]. eexists; reflexivity.
      * rewrite IHrest. reflexivity.
    + rewrite Hx. reflexivity.
  - cbn [to_string]. destruct (has_key "toString" members); cbn [negb];
      [reflexivity | eexists; reflexivity].
Qed.

Lemma to_primitive_printable (v : value) :
  if printable v then exists p : value, to_primitive v = Returns p
  else to_primitive v = Throws TypeError.
Proof.
  pose proof (to_string_printable v) as H.
  destruct v; try (eexists; reflexivity); unfold to_primitive;
    (destruct (printable _); [destruct H as [s ->]; eexists; reflexivity
                             | rewrite H; reflexivity]).
Qed.

Lemma less_than_printable (x y : value) :
  printable x = true -> printable y = true ->
  exists r, less_than x y = Returns r.
Proof.
  intros Hx Hy.
  pose proof (to_primitive_printable x) as Px. rewrite Hx in Px.
  pose proof (to_primitive_printable y) as Py. rewrite Hy in Py.
  destruct Px as [px Px], Py as [py Py].
  unfold less_than. rewrite Px, Py. cbn [bind].
  destruct px, py; cbn;
    repeat match goal with
           | |- context [match ?o with Some _ => _ | None => _ end] => destruct o
           end; eauto.
Qed.

Lemma less_than_unprintable (x y : value) :
  printable x = false \/ printable y = false ->
  less_than x y = Throws TypeError.
Proof.
  intro H. unfold less_than.
  pose proof (to_primitive_printable x) as Px.
  pose proof (to_primitive_printable y) as Py.
  destruct (printable x).
  - destruct H as [H | H]; [discriminate |]. rewrite H in Py.
    destruct Px as [px ->]. cbn [bind]. rewrite Py. reflexivity.
  - rewrite Px. reflexivity.
Qed.

Lemma less_than_not_builtin (x y : value) : less_than x y <> Builtin.
Proof.
  destruct (printable x) eqn:Hx; [destruct (printable y) eqn:Hy |].
  - destruct (less_than_printable x y Hx Hy) as [r ->]. discriminate.
  - rewrite less_than_unprintable by auto. discriminate.
  - rewrite less_than_unprintable by auto. discriminate.
Qed.

Lemma conditions_not_builtin (c : Cond.t) (v other : value)
      (index : option (option Z)) :
  conditions c v other index <> Builtin.
Proof.
  destruct c; cbn [conditions]; try discriminate.
  - pose proof (less_than_not_builtin other v).
    destruct (less_than other v); cbn; congruence.
  - pose proof (less_than_not_builtin v other).
    destruct (less_than v other); cbn; congruence.
  - assert (H : includes v other <> Builtin).
    { destruct v; cbn; try discriminate.
      pose proof (to_string_printable other) as P.
      destruct (printable other); [destruct P as [e ->] | rewrite P];
        discriminate. }
    destruct index as [[i |] |]; cbn [containsValidator]; (discriminate || exact H).
Qed.

(** ** Conditions on a container *)

(** On a string or an array the first call, which carries the index,
    decides nothing: whenever it throws, the second call throws too. *)
Lemma first_comparison_dead {A : Type} (c : Cond.t) (d other : value)
      (index : option (option Z)) (k : bool -> outcome A) :
  (comparison <- conditions c d other index ;;
   comparison <- conditions c d other None ;; k comparison) =
  (comparison <- conditions c d other None ;; k comparison).
Proof.
  destruct c; cbn [conditions]; try reflexivity.
  - destruct (less_than other d) as [r | e |]; reflexivity.
  - destruct (less_than d other) as [r | e |]; reflexivity.
  - destruct index as [[i |] |]; cbn [containsValidator bind]; try reflexivity;
      destruct (includes d other) as [r | e |]; reflexivity.
Qed.

Lemma validate_container (req : value) (rq : Request) :
  parseRequest req = inr req -> as_request req = Some rq ->
  is_container (data rq) = true ->
  validate req =
  (comparison <- conditions (rule_condition (rule rq)) (data rq)
                   (rule_condition_value (rule rq)) None ;;
   Returns (Completed
     {| condition := rule_condition (rule rq);
        condition_value := rule_condition_value (rule rq);
        error := negb comparison;
        field := rule_field (rule rq);
        field_value := data rq |})).
Proof.
  intros Hp Hr Hc. rewrite (validate_accepted req rq Hp Hr), Hc.
  unfold bind at 1.
  destruct (conditions _ _ _ (Some _)) as [b | e |] eqn:E1.
  - reflexivity.
  - pose proof (first_comparison_dead (rule_condition (rule rq)) (data rq)
      (rule_condition_value (rule rq)) (Some (Str.parseInt (rule_field (rule rq))))
      (fun b => Returns b)) as H.
    rewrite E1 in H. cbn [bind] in H.
    destruct (conditions _ _ _ None) as [b | e' |]; cbn [bind] in *; congruence.
  - pose proof (first_comparison_dead (rule_condition (rule rq)) (data rq)
      (rule_condition_value (rule rq)) (Some (Str.parseInt (rule_field (rule rq))))
      (fun b => Returns b)) as H.
    rewrite E1 in H. cbn [bind] in H.
    destruct (conditions _ _ _ None) as [b | e' |]; cbn [bind] in *; congruence.
Qed.

(** For [contains] on a string or an array the outcome is the membership
    test, whatever the field. *)
Lemma contains_is_membership (req : value) (rq : Request) :
  parseRequest req = inr req -> as_request req = Some rq ->
  is_container (data rq) = true ->
  rule_condition (rule rq) = Cond.contains ->
  validate req =
  (found <- includes (data rq) (rule_condition_value (rule rq)) ;;
   Returns (Completed
     {| condition := Cond.contains;
        condition_value := rule_condition_value (rule rq);
        error := negb found;
        field := rule_field (rule rq);
        field_value := data rq |})).
Proof.
  intros Hp Hr Hc Hcond. rewrite (validate_container req rq Hp Hr Hc), Hcond.
  reflexivity.
Qed.

(** [contains] on a resolved value that is neither a string nor an array
    throws. *)
Lemma contains_on_non_container_throws (req : value) (rq : Request) (v : value) :
  parseRequest req = inr req -> as_request req = Some rq ->
  is_object (data rq) = true ->
  indexOn (data rq) (rule_field (rule rq)) = Found v ->
  is_container v = false ->
  rule_condition (rule rq) = Cond.contains ->
  validate req = Throws TypeError.
Proof.
  intros Hp Hr Hobj Hv Hc Hcond.
  rewrite (validate_accepted req rq Hp Hr).
  destruct (data rq); try discriminate.
  cbn [is_container bind]. rewrite Hv, Hcond.
  destruct v; try discriminate; reflexivity.
Qed.

(** ** The claims *)

(** C1. The specification: on string or array data, [contains] with a
    numeric field compares the item at that index with the condition
    value, and the error flag is the negation of that check.  The engine
    makes this check on line 106 and overwrites its result on line 120 with
    the membership test.  On
    [{rule: {field: "0", condition: "contains", condition_value: "b"},
      data: ["a", "b"]}]
    the specified check fails (the item at index 0 is ["a"]), yet the
    engine answers with error [false]. *)
Theorem contains_index_overwritten :
  contains_check (VArr [VStr "a"; VStr "b"]) (VStr "b") "0" = Returns false /\
  validate (request "0" "contains" (VStr "b") (VArr [VStr "a"; VStr "b"])) =
  Returns (Completed
    {| error := false;
       field := "0";
       field_value := VArr [VStr "a"; VStr "b"];
       condition := Cond.contains;
       condition_value := VStr "b" |}).
Proof. split; reflexivity. Qed.

(** C2. The specification: [validate] never throws.  On
    [{rule: {field: "a", condition: "contains", condition_value: true},
      data: {a: true}}]
    the request passes the schema, the field resolves to [true], and
    [true.includes] is not a function: [validate] throws a TypeError. *)
Theorem contains_on_scalar_throws :
  parseRequest (request "a" "contains" (VBool true) (VObj [("a", VBool true)])) =
    inr (request "a" "contains" (VBool true) (VObj [("a", VBool true)])) /\
  indexOn (VObj [("a", VBool true)]) "a" = Found (VBool true) /\
  validate (request "a" "contains" (VBool true) (VObj [("a", VBool true)])) =
    Throws TypeError.
Proof. repeat split; reflexivity. Qed.

(** C3, amended.  For object data and a dotted field path, field
    resolution is iterative indexing by the segments of the path that are
    not blank (empty or made of white space only); and whenever a key on
    that way is absent, [validate] returns the abort [missing_data_field]
    with the message [field <field> is missing from data.]. *)
Theorem dotted_path_resolution :
  (forall (members : list (string * value)) (path : string),
     indexOn (VObj members) path =
     resolve (VObj members) (nonblank_segments path)) /\
  (forall (req : value) (rq : Request),
     parseRequest req = inr req -> as_request req = Some rq ->
     is_object (data rq) = true ->
     absent (data rq) (nonblank_segments (rule_field (rule rq))) ->
     validate req =
     Returns (Aborted (abort missing_data_field
       ("field " ++ rule_field (rule rq) ++ " is missing from data.")))).
Proof.
  split.
  - intros members path. apply indexOn_resolve.
  - intros req rq Hp Hr Hobj Habs.
    rewrite (validate_accepted req rq Hp Hr).
    apply absent_resolve in Habs. rewrite <- indexOn_resolve in Habs.
    destruct (data rq); try discriminate.
    cbn [is_container bind]. rewrite Habs. reflexivity.
Qed.

(** C4, amended.  For every object input whose [rule] is an object with a
    non-empty string [field], if [rule.condition] is present but is not one
    of eq, neq, gt, gte, contains, [validate] returns the abort
    [type_error] with the value
    [rule.condition must be one of eq, neq, gt, gte, or contains]. *)
Theorem unregistered_condition_type_error
        (members r : list (string * value)) (f : string) (c : value) :
  assoc "rule" members = Some (VObj r) ->
  assoc "field" r = Some (VStr f) -> f <> "" ->
  assoc "condition" r = Some c -> registered c = false ->
  validate (VObj members) =
  Returns (Aborted (abort type_error
    "rule.condition must be one of eq, neq, gt, gte, or contains")).
Proof.
  intros Hrule Hfield Hf Hcond Hreg.
  unfold validate. rewrite parseRequest_schema_violations.
  unfold schema_violations, rule_violations_of.
  rewrite (read_shadow "rule" (VObj r) members) by (discriminate || exact Hrule).
  rewrite (read_shadow "field" (VStr f) r) by (discriminate || exact Hfield).
  rewrite (read_shadow "condition" c r) by (discriminate || exact Hcond).
  unfold field_violations_of, condition_violations_of. rewrite Hreg.
  destruct f as [| c0 f]; [congruence | reflexivity].
Qed.


(** C6.  For every top-level input that is not an object, [validate]
    returns the abort [invalid_schema] with the value
    [Invalid JSON payload passed.]. *)
Theorem non_object_invalid_schema (req : value) :
  is_object req = false ->
  validate req =
  Returns (Aborted (abort invalid_schema "Invalid JSON payload passed.")).
Proof. destruct req; (discriminate || reflexivity). Qed.

(** C7.  The request
    [{rule: {field: "0", condition: "eq", condition_value: "a"},
      data: "damien-marley"}]
    completes with error [true] and the whole string as field value; and
    for every accepted request whose data is a string or an array the
    condition is applied to the whole container, which is echoed as the
    field value. *)
Theorem container_compared_whole :
  validate (request "0" "eq" (VStr "a") (VStr "damien-marley")) =
  Returns (Completed
    {| error := true;
       field := "0";
       field_value := VStr "damien-marley";
       condition := Cond.eq;
       condition_value := VStr "a" |}) /\
  (forall (req : value) (rq : Request),
     parseRequest req = inr req -> as_request req = Some rq ->
     is_container (data rq) = true ->
     validate req =
     (comparison <- conditions (rule_condition (rule rq)) (data rq)
                      (rule_condition_value (rule rq)) None ;;
      Returns (Completed
        {| condition := rule_condition (rule rq);
           condition_value := rule_condition_value (rule rq);
           error := negb comparison;
           field := rule_field (rule rq);
           field_value := data rq |}))).
Proof. split; [reflexivity | exact validate_container]. Qed.

(** C9.  For accepted requests whose data is a string or an array,
    [validate] never returns [missing_data_field], and two such requests
    that differ only in [rule.field] have outcomes that differ at most in
    the echoed field: same error flag, field value, condition and
    condition value. *)
Theorem container_outcome_ignores_field
        (req1 req2 : value) (rq1 rq2 : Request) :
  parseRequest req1 = inr req1 -> as_request req1 = Some rq1 ->
  parseRequest req2 = inr req2 -> as_request req2 = Some rq2 ->
  is_container (data rq1) = true ->
  data rq2 = data rq1 ->
  rule_condition (rule rq2) = rule_condition (rule rq1) ->
  rule_condition_value (rule rq2) = rule_condition_value (rule rq1) ->
  (forall m : string,
     validate req1 <> Returns (Aborted (abort missing_data_field m))) /\
  same_but_field (validate req1) (validate req2).
Proof.
  intros Hp1 Hr1 Hp2 Hr2 Hc Hd Hcond Hcv.
  assert (Hc2 : is_container (data rq2) = true) by now rewrite Hd.
  rewrite (validate_container req1 rq1 Hp1 Hr1 Hc).
  rewrite (validate_container req2 rq2 Hp2 Hr2 Hc2).
  rewrite Hd, Hcond, Hcv.
  pose proof (conditions_not_builtin (rule_condition (rule rq1)) (data rq1)
                (rule_condition_value (rule rq1)) None) as Hnb.
  destruct (conditions _ _ _ None) as [b | e |]; cbn.
  - split; [discriminate | repeat split; reflexivity].
  - split; [discriminate | reflexivity].
  - congruence.
Qed.

(** C10, amended.  For object data, when the dotted path resolves to the
    value [null], [validate] does not return [missing_data_field] but
    compares: it returns a completed outcome with field value [null] for
    the conditions eq and neq, and for gt and gte when the condition value
    converts to a primitive. *)
Theorem null_field_compared (req : value) (rq : Request) :
  parseRequest req = inr req -> as_request req = Some rq ->
  is_object (data rq) = true ->
  indexOn (data rq) (rule_field (rule rq)) = Found VNull ->
  rule_condition (rule rq) <> Cond.contains ->
  (rule_condition (rule rq) = Cond.gt \/ rule_condition (rule rq) = Cond.gte ->
   printable (rule_condition_value (rule rq)) = true) ->
  exists b : bool,
    validate req =
    Returns (Completed
      {| error := b;
         field := rule_field (rule rq);
         field_value := VNull;
         condition := rule_condition (rule rq);
         condition_value := rule_condition_value (rule rq) |}).
Proof.
  intros Hp Hr Hobj Hnull Hcond Hconv.
  rewrite (validate_accepted req rq Hp Hr).
  destruct (data rq); try discriminate.
  cbn [is_container bind]. rewrite Hnull.
  destruct (rule_condition (rule rq)) eqn:Ec; cbn [conditions bind].
  - eauto.
  - eauto.
  - destruct (less_than_printable (rule_condition_value (rule rq)) VNull)
      as [r Hr']; [auto | reflexivity |].
    rewrite Hr'. cbn [bind]. eauto.
  - destruct (less_than_printable VNull (rule_condition_value (rule rq)))
      as [r Hr']; [reflexivity | auto |].
    rewrite Hr'. cbn [bind]. eauto.
  - congruence.
Qed.

(** With gt or gte and a condition value that does not convert, the
    comparison with [null] throws. *)
Lemma null_field_unprintable_throws (req : value) (rq : Request) :
  parseRequest req = inr req -> as_request req = Some rq ->
  is_object (data rq) = true ->
  indexOn (data rq) (rule_field (rule rq)) = Found VNull ->
  rule_condition (rule rq) = Cond.gt \/ rule_condition (rule rq) = Cond.gte ->
  printable (rule_condition_value (rule rq)) = false ->
  validate req = Throws TypeError.
Proof.
  intros Hp Hr Hobj Hnull Hcond Hconv.
  rewrite (validate_accepted req rq Hp Hr).
  destruct (data rq); try discriminate.
  cbn [is_container bind]. rewrite Hnull.
  destruct Hcond as [-> | ->]; cbn [conditions];
    rewrite less_than_unprintable; auto.
Qed.

(** * Further properties of the code *)

(** ** The schema *)

Lemma of_name_registered (c : string) (k : Cond.t) :
  Cond.of_name c = Some k -> registered (VStr c) = true.
Proof.
  unfold Cond.of_name, registered, Cond.keys. cbn.
  destruct (c =? "eq"); [reflexivity |].
  destruct (c =? "neq"); [reflexivity |].
  destruct (c =? "gt"); [reflexivity |].
  destruct (c =? "gte"); [reflexivity |].
  destruct (c =? "contains"); [reflexivity | discriminate].
Qed.

Lemma violations_request (f c : string) (cv d : value) :
  violations (request f c cv d) =
  (field_violations [("field", VStr f); ("condition", VStr c); ("condition_value", cv)]
   ++ condition_violations [("field", VStr f); ("condition", VStr c); ("condition_value", cv)]
   ++ data_violations [("rule", VObj [("field", VStr f); ("condition", VStr c);
                                      ("condition_value", cv)]); ("data", d)])%list.
Proof.
  unfold violations, request, rule_violations, unknown_violations,
    condition_value_violations. cbn.
  rewrite !app_nil_r, <- app_assoc. reflexivity.
Qed.

(** X1.  A request that passes the schema is handed on as it is.  When
    it has the parts that [validate] reads as members of its own, so that
    the cast [req as Request] is defined on it, its rule has a non-empty
    string field and a registered condition, and its data is an array, an
    object or a non-empty string.  It has them whenever neither the
    request nor its rule has a member of its own named [__proto__]. *)
Theorem accepted_request_shape (req r : value) :
  parseRequest req = inr r ->
  r = req /\
  (forall rq : Request,
     as_request req = Some rq ->
     rule_field (rule rq) <> "" /\ admissible_data (data rq) = true) /\
  (proto_free req = true -> exists rq : Request, as_request req = Some rq).
Proof.
  intro H. split; [exact (proj1 (parseRequest_inr req r H)) |]. split.
  - intros rq Hr.
    destruct (parseRequest_shape req r rq H Hr) as (_ & Hf & Hd & Hk).
    split; [exact Hf |].
    destruct (data rq) as [| b | n | [| c0 s] | items | fs];
      try reflexivity; try congruence; destruct Hk; discriminate.
  - intro Hp. exact (parseRequest_parts req r Hp H).
Qed.

(** X2.  The request [{rule: {field, condition, condition_value}, data}]
    passes the schema exactly when the field is not empty, the condition
    is one of the five names and the data is an array, an object or a
    non-empty string; the cast then reads back the four parts. *)
Theorem request_accepted_iff (f c : string) (cv d : value) :
  (parseRequest (request f c cv d) = inr (request f c cv d) <->
   f <> "" /\ (exists k, Cond.of_name c = Some k) /\ admissible_data d = true) /\
  (forall k : Cond.t,
     Cond.of_name c = Some k ->
     as_request (request f c cv d) =
     Some {| data := d;
             rule := {| rule_field := f; rule_condition := k;
                        rule_condition_value := cv |} |}).
Proof.
  split.
  - rewrite parseRequest_first_violation by reflexivity.
    rewrite violations_request.
    unfold field_violations, condition_violations, data_violations. cbn [assoc String.eqb Ascii.eqb Bool.eqb].
    split.
    + intro H.
      destruct f as [| c0 f]; [discriminate |].
      destruct (registered (VStr c)) eqn:Hreg; [| discriminate].
      destruct (registered_name _ Hreg) as (s & k & Hs & Hk). injection Hs as <-.
      repeat split; [discriminate | eauto |].
      destruct d as [| b | n | [| d0 ds] | items | fs]; (reflexivity || discriminate).
    + intros (Hf & (k & Hk) & Hd).
      destruct f as [| c0 f]; [congruence |].
      rewrite (of_name_registered c k Hk).
      destruct d as [| b | n | [| d0 ds] | items | fs]; (reflexivity || discriminate).
  - intros k Hk. unfold as_request, request. cbn. now rewrite Hk.
Qed.

Lemma validate_schema_violation (req : value) (e : EarlyAbort) (rest : list EarlyAbort) :
  schema_violations req = e :: rest -> validate req = Returns (Aborted e).
Proof.
  intro H. unfold validate. now rewrite parseRequest_schema_violations, H.
Qed.

Lemma validate_first_violation (req : value) (e : EarlyAbort) (rest : list EarlyAbort) :
  proto_free req = true ->
  violations req = e :: rest -> validate req = Returns (Aborted e).
Proof.
  intros Hp H. apply validate_schema_violation with rest.
  now rewrite (schema_violations_proto_free req Hp).
Qed.

Lemma assoc_in {A : Type} (k : string) (a : A) (l : list (string * A)) :
  assoc k l = Some a -> In (k, a) l.
Proof.
  induction l as [| [k' a'] l IH]; cbn [assoc]; [discriminate |].
  destruct (String.eqb_spec k k') as [-> | _].
  - intro H. injection H as ->. now left.
  - intro H. right. exact (IH H).
Qed.

Lemma unknown_members_in (known : list string) (members : list (string * value))
      (k : string) (v : value) :
  In (k, v) members -> ~ In k known ->
  unknown_members known members <> [].
Proof.
  intros Hin Hk Hnil.
  assert (H : In (k, v) (unknown_members known members)).
  { unfold unknown_members. apply filter_In. split; [exact Hin |].
    cbn. destruct (existsb (String.eqb k) known) eqn:E; [| reflexivity].
    apply existsb_exists in E as (x & Hx & Ex).
    apply String.eqb_eq in Ex. subst. contradiction. }
  rewrite Hnil in H. exact H.
Qed.

(** A rule in order has its members for own ones and no member
    [__proto__]: the schema finds it in order as well. *)
Lemma rule_violations_schema (members : list (string * value)) :
  rule_violations members = [] ->
  rule_violations_of (Joi.read members "rule") = [] /\
  proto_free (VObj members) = negb (has_key "__proto__" members).
Proof.
  unfold rule_violations, proto_free. intro H.
  destruct (assoc "rule" members) as [[| b | n | s | items | r]|] eqn:Hr;
    try discriminate.
  rewrite (read_shadow "rule" (VObj r) members) by (discriminate || exact Hr).
  assert (Hp : has_key "__proto__" r = false).
  { apply app_eq_nil in H as [_ H]. apply app_eq_nil in H as [_ H].
    apply app_eq_nil in H as [_ H].
    unfold unknown_violations in H. apply map_eq_nil in H.
    unfold has_key. destruct (assoc "__proto__" r) as [v |] eqn:E; [| reflexivity].
    exfalso. revert H. apply unknown_members_in with "__proto__" v.
    - now apply assoc_in.
    - cbn. intuition discriminate. }
  split.
  - unfold rule_violations_of.
    rewrite !(read_own _ r Hp), (own_keys_id r Hp). exact H.
  - rewrite Hp. cbn. now rewrite andb_true_r.
Qed.

(** The unknown members of the copy are those of the request other than
    [__proto__]. *)
Lemma unknown_members_own_keys (known : list string) (members : list (string * value)) :
  unknown_members known (Joi.own_keys members) =
  unknown_members (known ++ ["__proto__"]) members.
Proof.
  unfold unknown_members, Joi.own_keys.
  induction members as [| [k v] rest IH]; [reflexivity |].
  cbn [filter fst]. rewrite existsb_app. cbn [existsb].
  rewrite orb_false_r.
  destruct (String.eqb k "__proto__") eqn:E; cbn [negb].
  - rewrite orb_true_r. cbn [negb]. exact IH.
  - cbn [filter fst]. rewrite orb_false_r.
    destruct (existsb (String.eqb k) known); cbn [negb]; now rewrite IH.
Qed.

Lemma unknown_violations_types (p known : list string) (members : list (string * value)) :
  Forall (fun e => abort_type e = type_error) (unknown_violations p known members).
Proof.
  unfold unknown_violations. apply Forall_forall. intros e He.
  apply in_map_iff in He as (m & <- & _). reflexivity.
Qed.

(** The violations of the shape are of the three kinds of the shape
    validator. *)
Lemma violations_types (req : value) :
  Forall (fun e => abort_type e <> missing_data_field) (violations req).
Proof.
  assert (U : forall p known members,
             Forall (fun e => abort_type e <> missing_data_field)
                    (unknown_violations p known members)).
  { intros. eapply Forall_impl; [| apply unknown_violations_types].
    cbn. intros a ->. discriminate. }
  destruct req as [| b | n | s | items | members]; cbn [violations];
    try (constructor; [discriminate | constructor]).
  rewrite !Forall_app. repeat split; auto.
  - unfold rule_violations.
    destruct (assoc "rule" members) as [[| b | n | s | items | r] |];
      try (constructor; [discriminate | constructor]).
    rewrite !Forall_app. repeat split; auto.
    + unfold field_violations.
      destruct (assoc "field" r) as [[| b | n | [| c0 s] | items | fs] |];
        try (constructor; [discriminate | constructor]); constructor.
    + unfold condition_violations.
      destruct (assoc "condition" r) as [c |];
        [destruct (registered c) |];
        try (constructor; [discriminate | constructor]); constructor.
    + unfold condition_value_violations.
      destruct (assoc "condition_value" r);
        try (constructor; [discriminate | constructor]); constructor.
  - unfold data_violations.
    destruct (assoc "data" members) as [[| b | n | [| c0 s] | items | fs] |];
      try (constructor; [discriminate | constructor]); constructor.
Qed.

Lemma schema_violations_types (req : value) :
  Forall (fun e => abort_type e <> missing_data_field) (schema_violations req).
Proof.
  assert (U : forall p known members,
             Forall (fun e => abort_type e <> missing_data_field)
                    (unknown_violations p known members)).
  { intros. eapply Forall_impl; [| apply unknown_violations_types].
    cbn. intros a ->. discriminate. }
  destruct req as [| b | n | s | items | members]; cbn [schema_violations];
    try (constructor; [discriminate | constructor]).
  rewrite !Forall_app. repeat split; auto.
  - unfold rule_violations_of.
    destruct (Joi.read members "rule") as [[| b | n | s | items | r] |];
      try (constructor; [discriminate | constructor]).
    rewrite !Forall_app. repeat split; auto.
    + unfold field_violations_of.
      destruct (Joi.read r "field") as [[| b | n | [| c0 s] | items | fs] |];
        try (constructor; [discriminate | constructor]); constructor.
    + unfold condition_violations_of.
      destruct (Joi.read r "condition") as [c |];
        [destruct (registered c) |];
        try (constructor; [discriminate | constructor]); constructor.
    + unfold condition_value_violations_of.
      destruct (Joi.read r "condition_value");
        try (constructor; [discriminate | constructor]); constructor.
  - unfold data_violations_of.
    destruct (Joi.read members "data") as [[| b | n | [| c0 s] | items | fs] |];
      try (constructor; [discriminate | constructor]); constructor.
Qed.


(** What [validate] returns when it completes or aborts after the shape
    check. *)
Lemma validate_object_data (req : value) (rq : Request) :
  parseRequest req = inr req -> as_request req = Some rq ->
  is_container (data rq) = false ->
  validate req =
  match indexOn (data rq) (rule_field (rule rq)) with
  | Undefined =>
      Returns (Aborted (abort missing_data_field
                 ("field " ++ rule_field (rule rq) ++ " is missing from data.")))
  | Inherited => Builtin
  | Found v =>
      comparison <- conditions (rule_condition (rule rq)) v
                      (rule_condition_value (rule rq)) None ;;
      Returns (Completed
        {| condition := rule_condition (rule rq);
           condition_value := rule_condition_value (rule rq);
           error := negb comparison;
           field := rule_field (rule rq);
           field_value := v |})
  end.
Proof.
  intros Hp Hr Hc. rewrite (validate_accepted req rq Hp Hr), Hc. reflexivity.
Qed.


(** X4.  In a request in which neither the request nor its rule has a
    member of its own named [__proto__], a required member that is missing
    is reported as [missing_required_field] with the message of that
    member, once the members checked before it are in order: [rule], then
    [rule.field], [rule.condition] and [rule.condition_value], then
    [data]. *)
Theorem missing_member_reported (members : list (string * value)) :
  proto_free (VObj members) = true ->
  (assoc "rule" members = None ->
   validate (VObj members) =
   Returns (Aborted (abort missing_required_field "rule is required."))) /\
  (forall r : list (string * value),
     assoc "rule" members = Some (VObj r) ->
     (assoc "field" r = None ->
      validate (VObj members) =
      Returns (Aborted (abort missing_required_field "rule.field is required"))) /\
     (field_violations r = [] -> assoc "condition" r = None ->
      validate (VObj members) =
      Returns (Aborted (abort missing_required_field "rule.condition is required"))) /\
     (field_violations r = [] -> condition_violations r = [] ->
      assoc "condition_value" r = None ->
      validate (VObj members) =
      Returns (Aborted (abort missing_required_field
                 "rule.condition_value is required")))) /\
  (rule_violations members = [] -> assoc "data" members = None ->
   validate (VObj members) =
   Returns (Aborted (abort missing_required_field "data is required."))).
Proof.
  intro Hp. repeat split.
  - intro H. eapply validate_first_violation; [exact Hp |].
    unfold violations, rule_violations. rewrite H. reflexivity.
  - intro Hf. eapply validate_first_violation; [exact Hp |].
    unfold violations, rule_violations, field_violations. rewrite H, Hf. reflexivity.
  - intros Hf Hc. eapply validate_first_violation; [exact Hp |].
    unfold violations, rule_violations, condition_violations. rewrite H, Hf, Hc. reflexivity.
  - intros Hf Hc Hcv. eapply validate_first_violation; [exact Hp |].
    unfold violations, rule_violations, condition_value_violations.
    rewrite H, Hf, Hc, Hcv. reflexivity.
  - intros Hr Hd. eapply validate_first_violation; [exact Hp |].
    unfold violations, data_violations. rewrite Hr, Hd. reflexivity.
Qed.

(** X5.  A member of the wrong type is reported as [type_error]: a rule
    that is not an object, a rule field that is not a string, and, when
    the rule is in order, data that is [null], a boolean or a number. *)
Theorem wrong_type_reported (members : list (string * value)) :
  (forall v : value,
     assoc "rule" members = Some v -> is_object v = false ->
     validate (VObj members) =
     Returns (Aborted (abort type_error "rule should be an object."))) /\
  (forall (r : list (string * value)) (v : value),
     assoc "rule" members = Some (VObj r) ->
     assoc "field" r = Some v -> (forall s, v <> VStr s) ->
     validate (VObj members) =
     Returns (Aborted (abort type_error "rule.field should be a string"))) /\
  (forall d : value,
     rule_violations members = [] ->
     assoc "data" members = Some d ->
     is_structure d = false -> (forall s, d <> VStr s) ->
     validate (VObj members) =
     Returns (Aborted (abort type_error
                "data should be an array, an object, or a string."))).
Proof.
  repeat split.
  - intros v H Hv. eapply validate_schema_violation.
    unfold schema_violations, rule_violations_of.
    rewrite (read_shadow "rule" v members) by (discriminate || exact H).
    destruct v; (discriminate || reflexivity).
  - intros r v H Hf Hv. eapply validate_schema_violation.
    unfold schema_violations, rule_violations_of, field_violations_of.
    rewrite (read_shadow "rule" (VObj r) members) by (discriminate || exact H).
    rewrite (read_shadow "field" v r) by (discriminate || exact Hf).
    destruct v as [| b | n | s | items | fs]; try reflexivity.
    now destruct (Hv s).
  - intros d Hr Hd Hs Hv. eapply validate_schema_violation.
    unfold schema_violations, data_violations_of.
    rewrite (proj1 (rule_violations_schema members Hr)).
    rewrite (read_shadow "data" d members) by (discriminate || exact Hd).
    destruct d as [| b | n | s | items | fs]; try reflexivity; try discriminate.
    now destruct (Hv s).
Qed.

(** X6.  The empty string is admitted neither as the rule's field nor as
    data: both are reported as [type_error], although they are strings. *)
Theorem empty_string_rejected (members : list (string * value)) :
  (forall r : list (string * value),
     assoc "rule" members = Some (VObj r) ->
     assoc "field" r = Some (VStr "") ->
     validate (VObj members) =
     Returns (Aborted (abort type_error
                (Str.quoted "rule.field" ++ " is not allowed to be empty")))) /\
  (rule_violations members = [] ->
   assoc "data" members = Some (VStr "") ->
   validate (VObj members) =
   Returns (Aborted (abort type_error
              (Str.quoted "data" ++ " is not allowed to be empty")))).
Proof.
  split.
  - intros r H Hf. eapply validate_schema_violation.
    unfold schema_violations, rule_violations_of, field_violations_of.
    rewrite (read_shadow "rule" (VObj r) members) by (discriminate || exact H).
    rewrite (read_shadow "field" (VStr "") r) by (discriminate || exact Hf).
    reflexivity.
  - intros Hr Hd. eapply validate_schema_violation.
    unfold schema_violations, data_violations_of.
    rewrite (proj1 (rule_violations_schema members Hr)).
    rewrite (read_shadow "data" (VStr "") members) by (discriminate || exact Hd).
    reflexivity.
Qed.

Lemma data_violations_schema (members : list (string * value)) :
  data_violations members = [] ->
  data_violations_of (Joi.read members "data") = [].
Proof.
  unfold data_violations. intro H.
  destruct (assoc "data" members) as [d |] eqn:Hd; [| discriminate].
  now rewrite (read_shadow "data" d members) by (discriminate || exact Hd).
Qed.

Lemma in_own_keys (k : string) (v : value) (members : list (string * value)) :
  In (k, v) members -> k <> "__proto__" -> In (k, v) (Joi.own_keys members).
Proof.
  intros Hin Hk. unfold Joi.own_keys. apply filter_In. split; [exact Hin |].
  cbn [fst]. now destruct (String.eqb_spec k "__proto__").
Qed.

(** X7.  A request with a member it should not have is never accepted:
    any member of the request other than [rule], [data] and [__proto__],
    and any member of the rule other than [field], [condition],
    [condition_value] and [__proto__], makes [validate] abort with a
    defect of the shape.  When everything else is in order the abort is
    the [type_error] that names the first such member, by its name in the
    request and by [rule.] and its name in the rule. *)
Theorem stray_member_rejected (members : list (string * value)) :
  (forall (k : string) (v : value),
     In (k, v) members -> k <> "rule" -> k <> "data" -> k <> "__proto__" ->
     exists a : EarlyAbort,
       validate (VObj members) = Returns (Aborted a) /\
       abort_type a <> missing_data_field) /\
  (forall (r : list (string * value)) (k : string) (v : value),
     assoc "rule" members = Some (VObj r) ->
     In (k, v) r -> k <> "field" -> k <> "condition" -> k <> "condition_value" ->
     k <> "__proto__" ->
     exists a : EarlyAbort,
       validate (VObj members) = Returns (Aborted a) /\
       abort_type a <> missing_data_field) /\
  (forall (k : string) (v : value) (rest : list (string * value)),
     rule_violations members = [] -> data_violations members = [] ->
     unknown_members ["rule"; "data"; "__proto__"] members = (k, v) :: rest ->
     k <> "" ->
     validate (VObj members) =
     Returns (Aborted (abort type_error (Str.quoted k ++ " is not allowed")))) /\
  (forall (r : list (string * value)) (k : string) (v : value)
          (rest : list (string * value)),
     assoc "rule" members = Some (VObj r) ->
     field_violations r = [] -> condition_violations r = [] ->
     condition_value_violations r = [] ->
     unknown_members ["field"; "condition"; "condition_value"; "__proto__"] r =
       (k, v) :: rest ->
     validate (VObj members) =
     Returns (Aborted (abort type_error
                (Str.quoted ("rule." ++ k) ++ " is not allowed")))).
Proof.
  assert (G : forall req, schema_violations req <> [] ->
              exists a, validate req = Returns (Aborted a) /\
                        abort_type a <> missing_data_field).
  { intros req Hne. pose proof (schema_violations_types req) as T.
    destruct (schema_violations req) as [| e rest] eqn:E; [congruence |].
    exists e. split; [now apply validate_schema_violation with rest |].
    now inversion T. }
  repeat split.
  - intros k v Hin H1 H2 H3. apply G. cbn [schema_violations]. intro Hnil.
    apply app_eq_nil in Hnil as [_ Hnil]. apply app_eq_nil in Hnil as [_ Hnil].
    unfold unknown_violations in Hnil. apply map_eq_nil in Hnil.
    revert Hnil. apply unknown_members_in with k v; [now apply in_own_keys |].
    cbn. intuition congruence.
  - intros r k v Hr Hin H1 H2 H3 H4. apply G. cbn [schema_violations]. intro Hnil.
    apply app_eq_nil in Hnil as [Hnil _].
    rewrite (read_shadow "rule" (VObj r) members) in Hnil
      by (discriminate || exact Hr).
    unfold rule_violations_of in Hnil.
    apply app_eq_nil in Hnil as [_ Hnil]. apply app_eq_nil in Hnil as [_ Hnil].
    apply app_eq_nil in Hnil as [_ Hnil].
    unfold unknown_violations in Hnil. apply map_eq_nil in Hnil.
    revert Hnil. apply unknown_members_in with k v; [now apply in_own_keys |].
    cbn. intuition congruence.
  - intros k v rest Hr Hd Hu Hk. eapply validate_schema_violation.
    unfold schema_violations, unknown_violations.
    rewrite (proj1 (rule_violations_schema members Hr)).
    rewrite (data_violations_schema members Hd).
    rewrite (unknown_members_own_keys ["rule"; "data"] members).
    cbn [app]. rewrite Hu. cbn.
    unfold Str.quoted. cbn.
    destruct k as [| c0 k]; [congruence |]. reflexivity.
  - intros r k v rest Hr Hf Hc Hcv Hu. eapply validate_schema_violation.
    unfold schema_violations, rule_violations_of, unknown_violations.
    rewrite (read_shadow "rule" (VObj r) members) by (discriminate || exact Hr).
    assert (S : forall key,
              key <> "__proto__" -> assoc key r <> None ->
              Joi.read r key = assoc key r).
    { intros key Hkey Hsome. destruct (assoc key r) as [x |] eqn:E; [| congruence].
      now apply read_shadow. }
    unfold field_violations in Hf. unfold condition_violations in Hc.
    unfold condition_value_violations in Hcv.
    rewrite (S "field"), (S "condition"), (S "condition_value");
      try discriminate;
      try (intro E; rewrite E in *; discriminate).
    unfold field_violations_of, condition_violations_of,
      condition_value_violations_of.
    rewrite (unknown_members_own_keys ["field"; "condition"; "condition_value"] r).
    cbn [app]. rewrite Hu.
    destruct (assoc "field" r) as [[| b | n | [| c0 f] | items | fs] |];
      try discriminate.
    destruct (assoc "condition" r) as [c |]; [| discriminate].
    destruct (registered c); [| discriminate].
    destruct (assoc "condition_value" r); [| discriminate].
    reflexivity.
Qed.

(** ** The field resolver *)

Lemma split_nonempty (sep : ascii) (s : string) : Str.split sep s <> [].
Proof.
  destruct s as [| c s]; cbn; [discriminate |].
  destruct (Ascii.eqb c sep); [discriminate |].
  destruct (Str.split sep s); discriminate.
Qed.

Lemma split_app (sep : ascii) (p q : string) :
  Str.split sep (p ++ String sep q) = (Str.split sep p ++ Str.split sep q)%list.
Proof.
  induction p as [| c p IH]; cbn.
  - now rewrite Ascii.eqb_refl.
  - destruct (Ascii.eqb c sep); [now rewrite IH |].
    rewrite IH. pose proof (split_nonempty sep p) as Hne.
    destruct (Str.split sep p) as [| h t]; [congruence | reflexivity].
Qed.

Lemma split_no_dot (k : string) :
  has_dot k = false -> Str.split "." k = [k].
Proof.
  induction k as [| c k IH]; cbn; [reflexivity |].
  intro H. apply orb_false_iff in H as [Hc Hk].
  rewrite Hc, (IH Hk). reflexivity.
Qed.

Lemma split_segments_no_dot (path s : string) :
  In s (Str.split "." path) -> has_dot s = false.
Proof.
  revert s. induction path as [| c path IH]; cbn; intros s H.
  - destruct H as [<- | []]. reflexivity.
  - destruct (Ascii.eqb c ".") eqn:Ec.
    + destruct H as [<- | H]; [reflexivity | now apply IH].
    + pose proof (split_nonempty "." path) as Hne.
      destruct (Str.split "." path) as [| h t]; [congruence |].
      destruct H as [<- | H].
      * cbn. rewrite Ec. apply IH. now left.
      * apply IH. now right.
Qed.

Lemma indexOn_fold (obj : value) (path : string) :
  indexOn obj path =
  fold_left optional_member (nonblank_segments path) (Found obj).
Proof. rewrite indexOn_resolve. symmetry. apply fold_resolve. Qed.

Lemma indexOn_app (obj : value) (p q : string) :
  indexOn obj (p ++ "." ++ q) =
  fold_left optional_member (nonblank_segments q) (indexOn obj p).
Proof.
  rewrite !indexOn_fold. unfold nonblank_segments.
  change (p ++ "." ++ q) with (p ++ String "." q).
  now rewrite split_app, filter_app, fold_left_app.
Qed.

(** X8.  Resolution composes along the dots: resolving [p.q] is resolving
    [p] and then [q] in what was found; when [p] does not resolve, neither
    does [p.q]. *)
Theorem indexOn_compose (obj : value) (p q : string) :
  indexOn obj (p ++ "." ++ q) =
  match indexOn obj p with
  | Found v => indexOn v q
  | Undefined => Undefined
  | Inherited => Inherited
  end.
Proof.
  rewrite indexOn_app.
  destruct (indexOn obj p) as [v | |].
  - symmetry. apply indexOn_fold.
  - apply fold_undefined.
  - apply fold_inherited.
Qed.

(** X9.  A field made of dots and white space only names no member: it
    resolves to the data itself, so on object data [validate] never
    answers [missing_data_field] for it and compares the whole object. *)
Theorem blank_path_is_whole_data (req : value) (rq : Request) :
  parseRequest req = inr req -> as_request req = Some rq ->
  is_object (data rq) = true ->
  nonblank_segments (rule_field (rule rq)) = [] ->
  indexOn (data rq) (rule_field (rule rq)) = Found (data rq) /\
  validate req =
  (comparison <- conditions (rule_condition (rule rq)) (data rq)
                   (rule_condition_value (rule rq)) None ;;
   Returns (Completed
     {| condition := rule_condition (rule rq);
        condition_value := rule_condition_value (rule rq);
        error := negb comparison;
        field := rule_field (rule rq);
        field_value := data rq |})).
Proof.
  intros Hp Hr Hobj Hb.
  assert (Hi : indexOn (data rq) (rule_field (rule rq)) = Found (data rq))
    by now rewrite indexOn_resolve, Hb.
  split; [exact Hi |].
  rewrite (validate_object_data req rq Hp Hr), Hi; [reflexivity |].
  destruct (data rq); (discriminate || reflexivity).
Qed.

(** X10.  The segments that [indexOn] looks up have no dot in them and
    are not blank: a member whose name has a dot, or is made of white
    space, cannot be addressed by any field. *)
Theorem segments_addressable (path : string) :
  Forall (fun s => has_dot s = false /\ Str.blank s = false)
         (nonblank_segments path).
Proof.
  apply Forall_forall. intros s H.
  apply filter_In in H as [Hin Hb]. split.
  - now apply split_segments_no_dot with path.
  - now destruct (Str.blank s).
Qed.

(** X11.  A member of an object is found under its own name, when the
    name has no dot and is not blank; and a field that starts with that
    name resolves the rest of the path inside the member. *)
Theorem member_found_by_name (members : list (string * value))
        (k : string) (v : value) :
  has_dot k = false -> Str.blank k = false ->
  assoc k members = Some v ->
  indexOn (VObj members) k = Found v /\
  forall q : string, indexOn (VObj members) (k ++ "." ++ q) = indexOn v q.
Proof.
  intros Hd Hb Hk.
  assert (Hi : indexOn (VObj members) k = Found v).
  { rewrite indexOn_fold. unfold nonblank_segments.
    rewrite (split_no_dot k Hd). cbn. rewrite Hb. cbn.
    unfold member. cbn. now rewrite Hk. }
  split; [exact Hi |].
  intro q. rewrite indexOn_app, Hi. symmetry. apply indexOn_fold.
Qed.

(** ** The conditions *)

(** A request that lacks a part of its own completes nothing here. *)
Lemma validate_incomplete_not_completed (req : value) (c : ValidationCompleted) :
  validate_incomplete req <> Returns (Completed c).
Proof.
  unfold validate_incomplete.
  destruct req as [| b | n | s | items | members]; try discriminate.
  destruct (assoc "rule" members) as [[| b | n | s | items | r] |]; try discriminate.
  destruct (assoc "data" members) as [d |].
  - destruct (is_container d).
    + destruct (assoc "condition" r); discriminate.
    + destruct (assoc "field" r) as [[| b | n | f | items | fs] |]; try discriminate.
      destruct (indexOn d f); try discriminate;
        destruct (assoc "condition" r); discriminate.
  - destruct (assoc "field" r) as [[| b | n | f | items | fs] |]; discriminate.
Qed.

Lemma validate_completed_inv (req : value) (c : ValidationCompleted) :
  validate req = Returns (Completed c) ->
  exists rq : Request,
    parseRequest req = inr req /\ as_request req = Some rq /\
    field c = rule_field (rule rq) /\
    condition c = rule_condition (rule rq) /\
    condition_value c = rule_condition_value (rule rq) /\
    conditions (condition c) (field_value c) (condition_value c) None =
      Returns (negb (error c)) /\
    (if is_container (data rq) then field_value c = data rq
     else indexOn (data rq) (rule_field (rule rq)) = Found (field_value c)).
Proof.
  intro H.
  destruct (parseRequest req) as [a | r] eqn:Hp.
  - unfold validate in H. rewrite Hp in H. discriminate.
  - destruct (parseRequest_inr req r Hp) as [-> _].
    destruct (as_request req) as [rq |] eqn:Hr.
    2: { exfalso. unfold validate in H. rewrite Hp, Hr in H.
         exact (validate_incomplete_not_completed req c H). }
    exists rq. split; [reflexivity |]. split; [reflexivity |].
    destruct (is_container (data rq)) eqn:Hc.
    + rewrite (validate_container req rq Hp Hr Hc) in H.
      destruct (conditions _ _ _ None) as [b | e |] eqn:E; try discriminate.
      cbn in H. injection H as <-. cbn.
      rewrite negb_involutive. auto.
    + rewrite (validate_object_data req rq Hp Hr Hc) in H.
      destruct (indexOn _ _) as [v | |]; try discriminate.
      destruct (conditions _ _ _ None) as [b | e |] eqn:E; try discriminate.
      cbn in H. injection H as <-. cbn.
      rewrite negb_involutive. auto.
Qed.

(** X12.  A completed outcome echoes the rule unchanged (field,
    condition, condition value); its field value is the data itself for a
    string or an array and the resolved member for an object; and its
    error flag is the negation of the condition applied to that field
    value and the condition value.  (A request that passed the schema
    without a field or a condition value of its own would complete with
    [undefined] in that place; such an outcome is no
    [ValidationCompleted], and [validate_incomplete] leaves it open.) *)
Theorem completed_outcome_echoes (req : value) (c : ValidationCompleted) :
  validate req = Returns (Completed c) ->
  exists rq : Request,
    parseRequest req = inr req /\ as_request req = Some rq /\
    field c = rule_field (rule rq) /\
    condition c = rule_condition (rule rq) /\
    condition_value c = rule_condition_value (rule rq) /\
    conditions (condition c) (field_value c) (condition_value c) None =
      Returns (negb (error c)) /\
    (if is_container (data rq) then field_value c = data rq
     else indexOn (data rq) (rule_field (rule rq)) = Found (field_value c)).
Proof. apply validate_completed_inv. Qed.

(** X13.  An array or an object is equal to nothing: when the field value
    of a completed outcome is an array or an object, eq reports an error
    and neq does not, whatever the condition value, even one with the
    same content. *)
Theorem structures_never_equal (req : value) (c : ValidationCompleted) :
  validate req = Returns (Completed c) ->
  is_structure (field_value c) = true ->
  (condition c = Cond.eq -> error c = true) /\
  (condition c = Cond.neq -> error c = false).
Proof.
  intros H Hs.
  destruct (validate_completed_inv req c H) as (rq & _ & _ & _ & _ & _ & Hc & _).
  assert (E : strict_eq (field_value c) (condition_value c) = false)
    by (destruct (field_value c); (discriminate || reflexivity)).
  split; intro Hcond; rewrite Hcond in Hc; cbn in Hc; rewrite E in Hc;
    injection Hc as Hc; now destruct (error c).
Qed.

(** X14.  With the conditions eq and neq [validate] never throws: on
    every request that has its parts as members of its own it returns a
    result, an abort or a completed outcome, unless the data is an object
    and the field resolves to a member inherited from a built-in
    prototype. *)
Theorem equality_never_throws (req : value) (rq : Request) :
  as_request req = Some rq ->
  rule_condition (rule rq) = Cond.eq \/ rule_condition (rule rq) = Cond.neq ->
  is_container (data rq) = true \/
  indexOn (data rq) (rule_field (rule rq)) <> Inherited ->
  exists r : ValidationResult, validate req = Returns r.
Proof.
  intros Hr Hcond Hres.
  destruct (parseRequest req) as [a | r] eqn:Hp.
  - unfold validate. rewrite Hp. eauto.
  - destruct (parseRequest_inr req r Hp) as [-> _].
    destruct (is_container (data rq)) eqn:Hc.
    + rewrite (validate_container req rq Hp Hr Hc).
      destruct Hcond as [-> | ->]; cbn [conditions bind]; eauto.
    + rewrite (validate_object_data req rq Hp Hr Hc).
      destruct Hres as [Hres | Hres]; [discriminate |].
      destruct (indexOn _ _); [| eauto | congruence].
      destruct Hcond as [-> | ->]; cbn [conditions bind]; eauto.
Qed.

(** X15.  On object data [contains] throws exactly when the member it is
    applied to is not a string or an array, or is a string while the
    condition value does not convert to a string. *)
Theorem contains_throws_iff (req : value) (rq : Request) (v : value) :
  parseRequest req = inr req -> as_request req = Some rq ->
  is_object (data rq) = true ->
  indexOn (data rq) (rule_field (rule rq)) = Found v ->
  rule_condition (rule rq) = Cond.contains ->
  (validate req = Throws TypeError <->
   is_container v = false \/
   ((exists s, v = VStr s) /\ printable (rule_condition_value (rule rq)) = false)).
Proof.
  intros Hp Hr Hobj Hv Hcond.
  rewrite (validate_object_data req rq Hp Hr)
    by (destruct (data rq); (discriminate || reflexivity)).
  rewrite Hv, Hcond. cbn [conditions containsValidator].
  pose proof (to_string_printable (rule_condition_value (rule rq))) as P.
  destruct v as [| b | n | s | items | fs]; cbn [includes is_container bind];
    try (split; [intros _; now left | reflexivity]).
  - destruct (printable (rule_condition_value (rule rq))).
    + destruct P as [t ->]. cbn. split; [discriminate |].
      intros [H | [_ H]]; discriminate.
    + rewrite P. cbn. split; [| reflexivity].
      intros _. right. split; [eauto | reflexivity].
  - split; [discriminate |]. intros [H | [[s Hs] _]]; discriminate.
Qed.

Lemma get_beyond (s : string) (n : nat) :
  (String.length s <= n)%nat -> String.get n s = None.
Proof.
  revert n. induction s as [| c s IH]; intros n H; [reflexivity |].
  destruct n as [| n]; cbn in *; [lia |]. apply IH. lia.
Qed.

(** X16.  With a numeric index [containsValidator] never throws, not even
    on [null], and an index outside the array or the string gives
    [false]. *)
Theorem contains_index_out_of_range :
  (forall (v element : value) (i : Z),
     exists b : bool, containsValidator v element (Some (Some i)) = Returns b) /\
  (forall (items : list value) (element : value) (i : Z),
     (i < 0 \/ Z.of_nat (List.length items) <= i)%Z ->
     containsValidator (VArr items) element (Some (Some i)) = Returns false) /\
  (forall (s : string) (element : value) (i : Z),
     (i < 0 \/ Z.of_nat (String.length s) <= i)%Z ->
     containsValidator (VStr s) element (Some (Some i)) = Returns false).
Proof.
  repeat split.
  - intros. eexists. reflexivity.
  - intros items element i H. cbn.
    destruct (i <? 0)%Z eqn:E; [reflexivity |].
    apply Z.ltb_ge in E.
    assert (Hn : nth_error items (Z.to_nat i) = None)
      by (apply nth_error_None; lia).
    now rewrite Hn.
  - intros s element i H. cbn.
    destruct (i <? 0)%Z eqn:E; [reflexivity |].
    apply Z.ltb_ge in E. unfold Str.char_at.
    rewrite get_beyond by lia. reflexivity.
Qed.

Lemma prefix_spec (a s : string) :
  String.prefix a s = true <-> exists post, s = a ++ post.
Proof.
  revert s. induction a as [| c a IH]; intro s.
  - split; [intros _; exists s; reflexivity | intros _; now destruct s].
  - destruct s as [| d s]; cbn.
    + split; [discriminate | intros [post H]; discriminate].
    + destruct (Ascii.ascii_dec c d) as [-> | Hcd].
      * rewrite IH. split; intros [post H]; exists post; [now subst | now injection H].
      * split; [discriminate |]. intros [post H]. injection H as <- _. congruence.
Qed.

Lemma includes_spec (s sub : string) :
  Str.includes s sub = true <-> exists pre post, s = pre ++ sub ++ post.
Proof.
  induction s as [| c s IH]; cbn [Str.includes].
  - rewrite orb_false_r, prefix_spec. split.
    + intros [post H]. exists "", post. exact H.
    + intros (pre & post & H). destruct pre; [eauto | discriminate].
  - rewrite orb_true_iff, prefix_spec, IH. split.
    + intros [[post H] | (pre & post & H)].
      * exists "", post. exact H.
      * exists (String c pre), post. cbn. now rewrite H.
    + intros ([| d pre] & post & H).
      * left. eauto.
      * right. cbn in H. injection H as -> ->. eauto.
Qed.

(** X17.  For string data and a string condition value, [contains]
    completes, and without error exactly when the condition value occurs
    in the data as a substring; the empty string occurs in every string. *)
Theorem contains_is_substring (req : value) (rq : Request) (s sub : string) :
  parseRequest req = inr req -> as_request req = Some rq ->
  data rq = VStr s ->
  rule_condition (rule rq) = Cond.contains ->
  rule_condition_value (rule rq) = VStr sub ->
  exists c : ValidationCompleted,
    validate req = Returns (Completed c) /\
    field_value c = VStr s /\
    (error c = false <-> exists pre post, s = pre ++ sub ++ post) /\
    (sub = "" -> error c = false).
Proof.
  intros Hp Hr Hd Hcond Hcv.
  rewrite (validate_container req rq Hp Hr) by now rewrite Hd.
  rewrite Hd, Hcond, Hcv. cbn.
  eexists. split; [reflexivity |]. cbn. split; [reflexivity |].
  rewrite negb_false_iff, includes_spec. split; [tauto |].
  intros ->. exists "", s. reflexivity.
Qed.

Lemma ltb_asym (a b : string) : String.ltb a b = true -> String.ltb b a = false.
Proof.
  unfold String.ltb. rewrite (String.compare_antisym b a).
  destruct (String.compare a b); cbn; congruence.
Qed.

Lemma less_than_none_sym (x y : value) :
  less_than x y = Returns None -> less_than y x = Returns None.
Proof.
  unfold less_than.
  destruct (to_primitive x) as [px | e |]; cbn [bind]; try discriminate.
  destruct (to_primitive y) as [py | e |]; cbn [bind]; try discriminate.
  destruct px, py; cbn;
    repeat match goal with
           | |- context [match ?o with Some _ => _ | None => _ end] => destruct o
           end; congruence.
Qed.

(** X18.  When the operands of gt and gte do not compare (one of them
    converts to NaN) both conditions are false: gte is not the negation
    of "less than". *)
Theorem unordered_fails_both (v other : value) (index : option (option Z)) :
  less_than v other = Returns None ->
  conditions Cond.gt v other index = Returns false /\
  conditions Cond.gte v other index = Returns false.
Proof.
  intro H. cbn [conditions].
  rewrite (less_than_none_sym _ _ H), H. split; reflexivity.
Qed.

(** X19.  Where the runtime's order on numbers is asymmetric, gt implies
    gte: whenever gt holds of two values, gte holds of them too. *)
Theorem gt_implies_gte (v other : value) (index : option (option Z)) :
  (forall a b : number, num_ltb a b = true -> num_ltb b a = false) ->
  conditions Cond.gt v other index = Returns true ->
  conditions Cond.gte v other index = Returns true.
Proof.
  intros Hasym. cbn [conditions]. unfold less_than.
  destruct (to_primitive other) as [po | e |]; cbn [bind]; try discriminate.
  destruct (to_primitive v) as [pv | e |]; cbn [bind]; try discriminate.
  destruct po, pv; cbn;
    repeat match goal with
           | |- context [match ?o with Some _ => _ | None => _ end] => destruct o
           end; cbn; try discriminate;
    match goal with
    | |- context [num_ltb ?a ?b] =>
        destruct (num_ltb a b) eqn:E; [| discriminate];
        pose proof (Hasym _ _ E) as E'; intros _;
        first [rewrite E'; reflexivity | congruence]
    | |- context [String.ltb ?a ?b] =>
        destruct (String.ltb a b) eqn:E; [| discriminate];
        pose proof (ltb_asym _ _ E) as E'; intros _;
        first [rewrite E'; reflexivity | congruence]
    end.
Qed.

(** X24.  Where the runtime's order on numbers is irreflexive and
    agrees with its equality, eq implies gte: two values that are strictly
    equal also satisfy gte. *)
Theorem eq_implies_gte (v other : value) (index : option (option Z)) :
  (forall a : number, num_ltb a a = false) ->
  (forall a b : number, num_eqb a b = true -> num_ltb a b = false) ->
  conditions Cond.eq v other index = Returns true ->
  conditions Cond.gte v other index = Returns true.
Proof.
  intros Hirr Heq. cbn [conditions]. intro H. injection H as H.
  destruct v as [| x | x | x | x | x], other as [| y | y | y | y | y];
    try discriminate; cbn in *.
  - now rewrite Hirr.
  - apply Bool.eqb_prop in H as ->. now rewrite Hirr.
  - now rewrite (Heq _ _ H).
  - apply String.eqb_eq in H as ->.
    unfold String.ltb.
    assert (E : String.compare y y = Eq).
    { pose proof (String.compare_antisym y y) as A.
      destruct (String.compare y y); (reflexivity || discriminate). }
    now rewrite E.
Qed.

(** ** The route *)

Section RouteProperties.
Variable message_of : js_error -> string.

Lemma route_of_outcome (body : value) :
  Server.route message_of body =
  match validate body with
  | Returns (Completed c) =>
      Some {| Server.http_status := if error c then 400 else 200;
              Server.payload :=
                {| Server.message :=
                     "field " ++ field c ++ " "
                     ++ (if error c then "failed validation"
                         else "successfully validated") ++ ".";
                   Server.status := if error c then Server.status_error
                                    else Server.status_success;
                   Server.data := Some c |} |}
  | Returns (Aborted a) =>
      Some {| Server.http_status := 400;
              Server.payload := Server.FailedValidation (abort_value a) None |}
  | Throws e =>
      Some {| Server.http_status := 500;
              Server.payload := Server.FailedValidation (message_of e) None |}
  | Builtin => None
  end.
Proof.
  unfold Server.route, Server.handler.
  destruct (validate body) as [[a | c] | e |]; try reflexivity.
  destruct (error c); reflexivity.
Qed.

(** X20.  The route answers 200 exactly when [validate] completed without
    error, and then with the status ["success"]; every other answer is 400
    or 500 with the status ["error"]; and the answer carries data exactly
    when [validate] completed, the data being the completed outcome. *)
Theorem route_success_iff (body : value) (rp : Server.reply) :
  Server.route message_of body = Some rp ->
  (Server.http_status rp = 200 <->
   exists c, validate body = Returns (Completed c) /\ error c = false) /\
  (Server.http_status rp = 200 <->
   Server.status (Server.payload rp) = Server.status_success) /\
  (forall c, Server.data (Server.payload rp) = Some c <->
             validate body = Returns (Completed c)) /\
  (Server.http_status rp = 200 \/ Server.http_status rp = 400 \/
   Server.http_status rp = 500).
Proof.
  rewrite route_of_outcome.
  destruct (validate body) as [[a | c] | e |]; intro H; try discriminate;
    injection H as <-; cbn.
  - repeat split; try discriminate; auto.
    intros (c & Hc & _). discriminate.
  - destruct (error c) eqn:E; cbn; repeat split; try discriminate; auto;
      try (intros (c' & Hc & He); injection Hc as <-; congruence);
      try (intro Hc; congruence); eauto.
  - repeat split; try discriminate; auto.
    intros (c & Hc & _). discriminate.
Qed.

(** X21.  Every abort of [validate] is answered 400 with the value of
    the abort for a message and no data.  So a request that fails the
    shape check, and in which neither the request nor its rule has a
    member of its own named [__proto__], is answered 400 with the message
    of its first violation.  A completed comparison is answered with the
    message [field <field> successfully validated.] or, with 400,
    [field <field> failed validation.], and the outcome as data. *)
Theorem route_answers (body : value) :
  (forall a : EarlyAbort,
     validate body = Returns (Aborted a) ->
     Server.route message_of body =
     Some {| Server.http_status := 400;
             Server.payload :=
               {| Server.message := abort_value a;
                  Server.status := Server.status_error;
                  Server.data := None |} |}) /\
  (forall (e : EarlyAbort) (rest : list EarlyAbort),
     proto_free body = true ->
     violations body = e :: rest ->
     Server.route message_of body =
     Some {| Server.http_status := 400;
             Server.payload :=
               {| Server.message := abort_value e;
                  Server.status := Server.status_error;
                  Server.data := None |} |}) /\
  (forall c : ValidationCompleted,
     validate body = Returns (Completed c) ->
     Server.route message_of body =
     Some {| Server.http_status := if error c then 400 else 200;
             Server.payload :=
               {| Server.message :=
                    "field " ++ field c
                    ++ (if error c then " failed validation."
                        else " successfully validated.");
                  Server.status := if error c then Server.status_error
                                   else Server.status_success;
                  Server.data := Some c |} |}).
Proof.
  repeat split.
  - intros a H. now rewrite route_of_outcome, H.
  - intros e rest Hp H. rewrite route_of_outcome.
    now rewrite (validate_first_violation body e rest Hp H).
  - intros c H. rewrite route_of_outcome, H.
    destruct (error c); reflexivity.
Qed.

(** X22.  An exception of the engine becomes the answer 500: a request
    whose condition is [contains] and whose field resolves, in object
    data, to a value that is neither a string nor an array is not
    answered as a defect of the request (400) but as a fault of the
    server. *)
Theorem contains_on_scalar_answered_500 (body : value) (rq : Request) (v : value) :
  parseRequest body = inr body -> as_request body = Some rq ->
  is_object (data rq) = true ->
  indexOn (data rq) (rule_field (rule rq)) = Found v ->
  is_container v = false ->
  rule_condition (rule rq) = Cond.contains ->
  Server.route message_of body =
  Some {| Server.http_status := 500;
          Server.payload :=
            {| Server.message := message_of TypeError;
               Server.status := Server.status_error;
               Server.data := None |} |}.
Proof.
  intros Hp Hr Hobj Hv Hc Hcond. rewrite route_of_outcome.
  now rewrite (contains_on_non_container_throws body rq v Hp Hr Hobj Hv Hc Hcond).
Qed.

(** X23.  A body that decodes to something other than an object is
    answered as a body that does not decode at all: with the answer the
    error handler gives to a [SyntaxError] or to an empty JSON body whose
    status code is 400 or absent. *)
Theorem non_object_answered_as_syntax_error (body : value) (e : Server.error_object) :
  is_object body = false ->
  Server.is_syntax_error e = true \/
  Server.code e = Some "FST_ERR_CTP_EMPTY_JSON_BODY" ->
  Server.or_default (Server.statusCode e) 400 = 400 ->
  Server.route message_of body = Some (Server.errorHandler (Server.Error e)).
Proof.
  intros Hobj He Hs. rewrite route_of_outcome.
  assert (Hv : validate body =
               Returns (Aborted (abort invalid_schema "Invalid JSON payload passed.")))
    by (destruct body; (discriminate || reflexivity)).
  rewrite Hv. unfold Server.errorHandler.
  assert (Hb : Server.is_syntax_error e
               || match Server.code e with
                  | Some c => String.eqb c "FST_ERR_CTP_EMPTY_JSON_BODY"
                  | None => false
                  end = true).
  { destruct He as [-> | ->]; [reflexivity |]. cbn. apply orb_true_r. }
  rewrite Hb, Hs. reflexivity.
Qed.

End RouteProperties.

End Proofs.

(** ** The claims at concrete inputs

    The runtime of the examples is used from here on. *)

#[local] Existing Instance example_runtime.

(** The nested field [a.b.c] is missing from [{a: {b: null}}]: the value
    reached before [c] is [null]. *)
Lemma dotted_path_resolution_witness :
  validate (R := example_runtime)
    (request "a.b.c" "eq" (VStr "x") (VObj [("a", VObj [("b", VNull)])])) =
  Returns (Aborted (abort missing_data_field "field a.b.c is missing from data.")).
Proof.
  apply (proj2 (@dotted_path_resolution example_runtime)
           (request "a.b.c" "eq" (VStr "x") (VObj [("a", VObj [("b", VNull)])]))
           {| data := VObj [("a", VObj [("b", VNull)])];
              rule := {| rule_field := "a.b.c"; rule_condition := Cond.eq;
                         rule_condition_value := VStr "x" |} |}).
  - reflexivity.
  - reflexivity.
  - reflexivity.
  - apply absent_below with (x := VObj [("b", VNull)]);
      [discriminate | reflexivity |].
    apply absent_below with (x := VNull); [discriminate | reflexivity |].
    apply absent_null.
Defined.

(** A segment made of a space is not empty, and the engine drops it:
    indexing [{a: {" ": {b: "x"}}}] by the non-empty segments of [a. .b]
    finds ["x"], the engine finds nothing. *)
Lemma blank_segment_counterexample :
  indexOn (R := example_runtime)
    (VObj [("a", VObj [(" ", VObj [("b", VStr "x")])])]) "a. .b" <>
  resolve (VObj [("a", VObj [(" ", VObj [("b", VStr "x")])])])
    (nonempty_segments "a. .b").
Proof.
  change (@Undefined integer_numbers <> Found (VStr "x")). discriminate.
Qed.

Lemma unregistered_condition_witness :
  validate (R := example_runtime)
    (request "5" "invalid" (VStr "rocinante")
       (VArr [VStr "The Nauvoo"; VStr "The Razorback"; VStr "The Roci"; VStr "Tycho"])) =
  Returns (Aborted (abort type_error
    "rule.condition must be one of eq, neq, gt, gte, or contains")).
Proof.
  apply (@unregistered_condition_type_error example_runtime _
           [("field", VStr "5"); ("condition", VStr "invalid");
            ("condition_value", VStr "rocinante")]
           "5" (VStr "invalid")).
  - reflexivity.
  - reflexivity.
  - discriminate.
  - reflexivity.
  - reflexivity.
Defined.

(** The condition of
    [{rule: {condition: "invalid", condition_value: "x"}, data: {}}]
    is present and is none of the five names, and the outcome is the
    missing field of the rule. *)
Lemma unregistered_condition_counterexample :
  condition_member (R := example_runtime)
    (VObj [("rule", VObj [("condition", VStr "invalid");
                          ("condition_value", VStr "x")]);
           ("data", VObj [])]) = Some (VStr "invalid") /\
  registered (R := example_runtime) (VStr "invalid") = false /\
  validate (R := example_runtime)
    (VObj [("rule", VObj [("condition", VStr "invalid");
                          ("condition_value", VStr "x")]);
           ("data", VObj [])]) <>
  Returns (Aborted (abort type_error
    "rule.condition must be one of eq, neq, gt, gte, or contains")).
Proof.
  repeat split.
  change (Returns (Aborted (abort missing_required_field "rule.field is required"))
          <> Returns (Aborted (abort type_error
               "rule.condition must be one of eq, neq, gt, gte, or contains"))).
  discriminate.
Qed.



Lemma non_object_invalid_schema_witness :
  validate (R := example_runtime) (VStr "'") =
  Returns (Aborted (abort invalid_schema "Invalid JSON payload passed.")).
Proof.
  apply (@non_object_invalid_schema example_runtime (VStr "'")). reflexivity.
Defined.

Lemma container_compared_whole_witness :
  validate (R := example_runtime)
    (request "length" "gte" (VStr "b") (VArr [VStr "c"])) =
  (comparison <- conditions Cond.gte (VArr [VStr "c"]) (VStr "b") None ;;
   Returns (Completed
     {| condition := Cond.gte;
        condition_value := VStr "b";
        error := negb comparison;
        field := "length";
        field_value := VArr [VStr "c"] |})).
Proof.
  apply (proj2 (@container_compared_whole example_runtime)
           (request "length" "gte" (VStr "b") (VArr [VStr "c"]))
           {| data := VArr [VStr "c"];
              rule := {| rule_field := "length"; rule_condition := Cond.gte;
                         rule_condition_value := VStr "b" |} |});
    reflexivity.
Defined.

Lemma container_outcome_ignores_field_witness :
  (forall m : string,
     validate (R := example_runtime)
       (request "5" "contains" (VStr "Tycho") (VArr [VStr "The Roci"; VStr "Tycho"])) <>
     Returns (Aborted (abort missing_data_field m))) /\
  same_but_field
    (validate (R := example_runtime)
       (request "5" "contains" (VStr "Tycho") (VArr [VStr "The Roci"; VStr "Tycho"])))
    (validate (R := example_runtime)
       (request "name" "contains" (VStr "Tycho") (VArr [VStr "The Roci"; VStr "Tycho"]))).
Proof.
  apply (@container_outcome_ignores_field example_runtime _ _
           {| data := VArr [VStr "The Roci"; VStr "Tycho"];
              rule := {| rule_field := "5"; rule_condition := Cond.contains;
                         rule_condition_value := VStr "Tycho" |} |}
           {| data := VArr [VStr "The Roci"; VStr "Tycho"];
              rule := {| rule_field := "name"; rule_condition := Cond.contains;
                         rule_condition_value := VStr "Tycho" |} |});
    reflexivity.
Defined.

Lemma null_field_compared_witness :
  exists b : bool,
    validate (R := example_runtime)
      (request "a.b" "gte" (VStr "0") (VObj [("a", VObj [("b", VNull)])])) =
    Returns (Completed
      {| error := b;
         field := "a.b";
         field_value := VNull;
         condition := Cond.gte;
         condition_value := VStr "0" |}).
Proof.
  apply (@null_field_compared example_runtime
           (request "a.b" "gte" (VStr "0") (VObj [("a", VObj [("b", VNull)])]))
           {| data := VObj [("a", VObj [("b", VNull)])];
              rule := {| rule_field := "a.b"; rule_condition := Cond.gte;
                         rule_condition_value := VStr "0" |} |}).
  - reflexivity.
  - reflexivity.
  - reflexivity.
  - reflexivity.
  - discriminate.
  - intros _. reflexivity.
Defined.

(** The field of [{a: null}] resolves to [null], the condition is gt, and
    the condition value [{toString: null}] does not convert to a
    primitive: the comparison throws, nothing is completed. *)
Lemma null_field_compared_counterexample :
  indexOn (R := example_runtime) (VObj [("a", VNull)]) "a" = Found VNull /\
  forall c : ValidationCompleted,
    validate (R := example_runtime)
      (request "a" "gt" (VObj [("toString", VNull)]) (VObj [("a", VNull)])) <>
    Returns (Completed c).
Proof.
  split; [reflexivity |]. intro c.
  change (Throws TypeError <> Returns (Completed c)). discriminate.
Qed.

(** ** The cases of the test suite ([src/rules.spec.ts]) *)

Example rule_is_required :
  validate (VObj []) =
  Returns (Aborted (abort missing_required_field "rule is required.")).
Proof. reflexivity. Qed.

Example data_is_required :
  validate (VObj [("rule", validRule)]) =
  Returns (Aborted (abort missing_required_field "data is required.")).
Proof. reflexivity. Qed.

Example apostrophe_as_payload :
  validate (VStr "'") =
  Returns (Aborted (abort invalid_schema "Invalid JSON payload passed.")).
Proof. reflexivity. Qed.

Example valid_data_invalid_rule :
  validate (VObj [("rule", VStr ""); ("data", validData)]) =
  Returns (Aborted (abort type_error "rule should be an object.")).
Proof. reflexivity. Qed.

Example invalid_data_valid_rule :
  validate (VObj [("rule", validRule); ("data", VNum 1%Z)]) =
  Returns (Aborted (abort type_error
    "data should be an array, an object, or a string.")).
Proof. reflexivity. Qed.

Example missing_top_level_field :
  validate (VObj [("rule", validRule); ("data", VObj [])]) =
  Returns (Aborted (abort missing_data_field "field length is missing from data.")).
Proof. reflexivity. Qed.

Example missing_nested_field :
  validate (request "person.age" "eq" (VNum 2%Z) (VObj [])) =
  Returns (Aborted (abort missing_data_field
    "field person.age is missing from data.")).
Proof. reflexivity. Qed.

Example single_top_level_field :
  validate (VObj [("data", validData); ("rule", validRule)]) =
  Returns (Completed
    {| condition := Cond.eq; condition_value := VNum 2%Z; error := false;
       field := "length"; field_value := VNum 2%Z |}).
Proof. reflexivity. Qed.

Example ex1_nested_field :
  validate
    (request "missions.count" "gte" (VNum 30%Z)
       (VObj [("name", VStr "James Holden"); ("crew", VStr "Rocinante");
              ("age", VNum 34%Z); ("position", VStr "Captain");
              ("missions", VObj [("count", VNum 45%Z);
                                 ("successful", VNum 44%Z);
                                 ("failed", VNum 1%Z)])])) =
  Returns (Completed
    {| condition := Cond.gte; condition_value := VNum 30%Z; error := false;
       field := "missions.count"; field_value := VNum 45%Z |}).
Proof. reflexivity. Qed.

Example ex2_unequal_value :
  validate (request "0" "eq" (VStr "a") (VStr "damien-marley")) =
  Returns (Completed
    {| condition := Cond.eq; condition_value := VStr "a"; error := true;
       field := "0"; field_value := VStr "damien-marley" |}).
Proof. reflexivity. Qed.

Example ex3_missing_array_value :
  validate (request "5" "contains" (VStr "rocinante") ships) =
  Returns (Completed
    {| condition := Cond.contains; condition_value := VStr "rocinante";
       error := true; field := "5"; field_value := ships |}).
Proof. reflexivity. Qed.

Example invalid_rule_conditions :
  validate (request "5" "invalid" (VStr "rocinante") ships) =
  Returns (Aborted (abort type_error
    "rule.condition must be one of eq, neq, gt, gte, or contains")).
Proof. reflexivity. Qed.

(** ** Further cases *)

Example empty_field_rejected :
  validate (request "" "eq" (VStr "a") ships) =
  Returns (Aborted (abort type_error
    (Str.quoted "rule.field" ++ " is not allowed to be empty"))).
Proof. reflexivity. Qed.

Example unknown_member_rejected :
  validate (VObj [("rule", validRule); ("data", validData); ("extra", VNull)]) =
  Returns (Aborted (abort type_error (Str.quoted "extra" ++ " is not allowed"))).
Proof. reflexivity. Qed.

Example length_of_nested_array :
  validate (request "a.length" "eq" (VNum 2%Z) (VObj [("a", VArr [VNull; VNull])])) =
  Returns (Completed
    {| condition := Cond.eq; condition_value := VNum 2%Z; error := false;
       field := "a.length"; field_value := VNum 2%Z |}).
Proof. reflexivity. Qed.

Example inherited_member_reached :
  validate (request "constructor" "eq" VNull (VObj [])) = Builtin.
Proof. reflexivity. Qed.

Example inherited_array_member_reached :
  validate (request "a.push" "eq" VNull (VObj [("a", VArr [])])) = Builtin /\
  validate (request "a.push" "eq" VNull (VObj [("a", VObj [])])) =
  Returns (Aborted (abort missing_data_field "field a.push is missing from data.")).
Proof. split; reflexivity. Qed.

(** Members [__proto__]: one of the request is no member of the copy that
    the schema checks; parts that only the copy has, through its
    prototype, are missing when [validate] reads the request. *)
Example proto_member_not_checked :
  validate (VObj [("__proto__", VObj [("x", VNum 1%Z)]);
                  ("rule", validRule); ("data", validData)]) =
  Returns (Completed
    {| condition := Cond.eq; condition_value := VNum 2%Z; error := false;
       field := "length"; field_value := VNum 2%Z |}).
Proof. reflexivity. Qed.

Example proto_member_of_rule_not_checked :
  validate (VObj [("rule", VObj [("__proto__", VNull); ("field", VStr "length");
                                 ("condition", VStr "eq");
                                 ("condition_value", VNum 2%Z)]);
                  ("data", validData)]) =
  Returns (Completed
    {| condition := Cond.eq; condition_value := VNum 2%Z; error := false;
       field := "length"; field_value := VNum 2%Z |}).
Proof. reflexivity. Qed.

Example inherited_data_is_missing :
  parseRequest (VObj [("__proto__", VObj [("data", VObj [])]); ("rule", validRule)]) =
  inr (VObj [("__proto__", VObj [("data", VObj [])]); ("rule", validRule)]) /\
  validate (VObj [("__proto__", VObj [("data", VObj [])]); ("rule", validRule)]) =
  Returns (Aborted (abort missing_data_field "field length is missing from data.")).
Proof. split; reflexivity. Qed.

Example inherited_field_throws :
  validate (VObj [("rule", VObj [("__proto__", VObj [("field", VStr "a")]);
                                 ("condition", VStr "eq");
                                 ("condition_value", VNull)]);
                  ("data", VObj [])]) = Throws TypeError.
Proof. reflexivity. Qed.

Example proto_member_answered_200 :
  violations (VObj [("__proto__", VObj [("x", VNum 1%Z)]);
                    ("rule", validRule); ("data", validData)]) =
    [abort type_error (Str.quoted "__proto__" ++ " is not allowed")] /\
  option_map Server.http_status
    (Server.route (fun _ => "TypeError")
       (VObj [("__proto__", VObj [("x", VNum 1%Z)]);
              ("rule", validRule); ("data", validData)])) = Some 200.
Proof. split; reflexivity. Qed.

Example inherited_member_still_checked :
  validate (VObj [("__proto__", VObj [("rule", VStr "x")]); ("data", validData)]) =
  Returns (Aborted (abort type_error "rule should be an object.")).
Proof. reflexivity. Qed.

Example blank_segment_values :
  resolve (VObj [("a", VObj [(" ", VObj [("b", VStr "x")])])])
    (nonempty_segments "a. .b") = Found (VStr "x") /\
  indexOn (VObj [("a", VObj [(" ", VObj [("b", VStr "x")])])]) "a. .b" = Undefined.
Proof. split; reflexivity. Qed.

Example contains_prints_the_element :
  validate (request "x" "contains" (VNum 12%Z) (VStr "a12b")) =
  Returns (Completed
    {| condition := Cond.contains; condition_value := VNum 12%Z; error := false;
       field := "x"; field_value := VStr "a12b" |}).
Proof. reflexivity. Qed.

Example split_dotted : Str.split "." "missions.count" = ["missions"; "count"].
Proof. reflexivity. Qed.
Example split_empty_segments : Str.split "." ".a..b." = [""; "a"; ""; "b"; ""].
Proof. reflexivity. Qed.
Example parseInt_decimal : Str.parseInt " 42px" = Some 42%Z.
Proof. reflexivity. Qed.
Example parseInt_hex : Str.parseInt "-0x1F" = Some (-31)%Z.
Proof. reflexivity. Qed.
Example parseInt_nan : Str.parseInt "length" = None.
Proof. reflexivity. Qed.
Example index_key_canonical :
  Str.index_of_key "10" = Some 10%nat /\ Str.index_of_key "01" = None.
Proof. split; reflexivity. Qed.
Example trim_blank : Str.trim "  " = "" /\ Str.trim " a b " = "a b".
Proof. split; reflexivity. Qed.

(** ** The further properties at concrete inputs *)

Lemma accepted_request_shape_witness :
  (forall rq : Request,
     as_request (R := example_runtime)
       (request "a" "eq" (VStr "x") (VObj [("a", VStr "x")])) = Some rq ->
     rule_field (rule rq) <> "" /\ admissible_data (data rq) = true) /\
  exists rq : Request,
    as_request (R := example_runtime)
      (request "a" "eq" (VStr "x") (VObj [("a", VStr "x")])) = Some rq.
Proof.
  assert (Hp : parseRequest (R := example_runtime)
                 (request "a" "eq" (VStr "x") (VObj [("a", VStr "x")])) =
               inr (request "a" "eq" (VStr "x") (VObj [("a", VStr "x")])))
    by reflexivity.
  destruct (@accepted_request_shape example_runtime _ _ Hp) as (_ & H1 & H2).
  split; [exact H1 | apply H2; reflexivity].
Defined.

Lemma request_accepted_iff_witness :
  as_request (R := example_runtime) (request "a" "gte" (VStr "x") (VStr "y")) =
  Some {| data := VStr "y";
          rule := {| rule_field := "a"; rule_condition := Cond.gte;
                     rule_condition_value := VStr "x" |} |}.
Proof.
  apply (proj2 (@request_accepted_iff example_runtime "a" "gte" (VStr "x") (VStr "y"))
           Cond.gte).
  reflexivity.
Defined.


Lemma missing_member_reported_witness :
  validate (R := example_runtime) (VObj [("data", VStr "x")]) =
  Returns (Aborted (abort missing_required_field "rule is required.")).
Proof.
  refine (proj1 (@missing_member_reported example_runtime [("data", VStr "x")] _) _);
    reflexivity.
Defined.

Lemma wrong_type_reported_witness :
  validate (R := example_runtime) (VObj [("rule", VArr [])]) =
  Returns (Aborted (abort type_error "rule should be an object.")).
Proof.
  apply (proj1 (@wrong_type_reported example_runtime [("rule", VArr [])]) (VArr []));
    reflexivity.
Defined.

Lemma empty_string_rejected_witness :
  validate (R := example_runtime)
    (VObj [("rule", VObj [("field", VStr "")]); ("data", VNull)]) =
  Returns (Aborted (abort type_error
             (Str.quoted "rule.field" ++ " is not allowed to be empty"))).
Proof.
  apply (proj1 (@empty_string_rejected example_runtime
                  [("rule", VObj [("field", VStr "")]); ("data", VNull)])
           [("field", VStr "")]);
    reflexivity.
Defined.

Lemma stray_member_rejected_witness :
  (exists a : EarlyAbort,
     validate (R := example_runtime) (VObj [("extra", VNull)]) = Returns (Aborted a) /\
     abort_type a <> missing_data_field) /\
  validate (R := example_runtime)
    (VObj [("rule", VObj [("__proto__", VNull); ("field", VStr "a");
                          ("condition", VStr "eq"); ("condition_value", VNull);
                          ("extra", VNull)]);
           ("data", VStr "x")]) =
  Returns (Aborted (abort type_error (Str.quoted "rule.extra" ++ " is not allowed"))).
Proof.
  split.
  - apply (proj1 (@stray_member_rejected example_runtime [("extra", VNull)])
             "extra" VNull).
    + left. reflexivity.
    + discriminate.
    + discriminate.
    + discriminate.
  - apply (proj2 (proj2 (proj2 (@stray_member_rejected example_runtime
             [("rule", VObj [("__proto__", VNull); ("field", VStr "a");
                             ("condition", VStr "eq"); ("condition_value", VNull);
                             ("extra", VNull)]);
              ("data", VStr "x")])))
             [("__proto__", VNull); ("field", VStr "a");
              ("condition", VStr "eq"); ("condition_value", VNull);
              ("extra", VNull)]
             "extra" VNull []);
      reflexivity.
Defined.

Lemma blank_path_is_whole_data_witness :
  indexOn (R := example_runtime) (VObj [("a", VStr "x")]) " . " =
    Found (VObj [("a", VStr "x")]) /\
  validate (request " . " "neq" (VStr "x") (VObj [("a", VStr "x")])) =
  (comparison <- conditions Cond.neq (VObj [("a", VStr "x")]) (VStr "x") None ;;
   Returns (Completed
     {| condition := Cond.neq;
        condition_value := VStr "x";
        error := negb comparison;
        field := " . ";
        field_value := VObj [("a", VStr "x")] |})).
Proof.
  apply (@blank_path_is_whole_data example_runtime
           (request " . " "neq" (VStr "x") (VObj [("a", VStr "x")]))
           {| data := VObj [("a", VStr "x")];
              rule := {| rule_field := " . "; rule_condition := Cond.neq;
                         rule_condition_value := VStr "x" |} |});
    reflexivity.
Defined.

Lemma member_found_by_name_witness :
  indexOn (R := example_runtime) (VObj [("a", VObj [("b", VStr "x")])]) "a" =
    Found (VObj [("b", VStr "x")]) /\
  forall q : string,
    indexOn (VObj [("a", VObj [("b", VStr "x")])]) ("a" ++ "." ++ q) =
    indexOn (VObj [("b", VStr "x")]) q.
Proof.
  apply (@member_found_by_name example_runtime
           [("a", VObj [("b", VStr "x")])] "a" (VObj [("b", VStr "x")]));
    reflexivity.
Defined.

Lemma completed_outcome_echoes_witness :
  exists rq : Request,
    parseRequest (R := example_runtime)
      (request "0" "eq" (VStr "a") (VStr "damien-marley")) =
      inr (request "0" "eq" (VStr "a") (VStr "damien-marley")) /\
    as_request (request "0" "eq" (VStr "a") (VStr "damien-marley")) = Some rq /\
    "0" = rule_field (rule rq) /\
    Cond.eq = rule_condition (rule rq) /\
    VStr "a" = rule_condition_value (rule rq) /\
    conditions Cond.eq (VStr "damien-marley") (VStr "a") None = Returns (negb true) /\
    (if is_container (data rq) then VStr "damien-marley" = data rq
     else indexOn (data rq) (rule_field (rule rq)) = Found (VStr "damien-marley")).
Proof.
  apply (@completed_outcome_echoes example_runtime
           (request "0" "eq" (VStr "a") (VStr "damien-marley"))
           {| error := true; field := "0"; field_value := VStr "damien-marley";
              condition := Cond.eq; condition_value := VStr "a" |}).
  reflexivity.
Defined.

Lemma structures_never_equal_witness :
  (Cond.eq = Cond.eq -> true = true) /\ (Cond.eq = Cond.neq -> true = false).
Proof.
  apply (@structures_never_equal example_runtime
           (request "a" "eq" (VArr [VStr "x"]) (VObj [("a", VArr [VStr "x"])]))
           {| error := true; field := "a"; field_value := VArr [VStr "x"];
              condition := Cond.eq; condition_value := VArr [VStr "x"] |});
    reflexivity.
Defined.

Lemma equality_never_throws_witness :
  exists r : ValidationResult,
    validate (R := example_runtime)
      (request "a" "neq" (VObj [("toString", VNull)]) (VObj [("a", VNull)])) =
    Returns r.
Proof.
  apply (@equality_never_throws example_runtime
           (request "a" "neq" (VObj [("toString", VNull)]) (VObj [("a", VNull)]))
           {| data := VObj [("a", VNull)];
              rule := {| rule_field := "a"; rule_condition := Cond.neq;
                         rule_condition_value := VObj [("toString", VNull)] |} |}).
  - reflexivity.
  - right. reflexivity.
  - right. change (Found VNull <> Inherited). discriminate.
Defined.

Lemma contains_throws_iff_witness :
  validate (R := example_runtime)
    (request "a" "contains" (VStr "x") (VObj [("a", VNull)])) = Throws TypeError <->
  is_container (VNull : @value integer_numbers) = false \/
  ((exists s, (VNull : @value integer_numbers) = VStr s) /\
   printable (VStr "x" : @value integer_numbers) = false).
Proof.
  apply (@contains_throws_iff example_runtime
           (request "a" "contains" (VStr "x") (VObj [("a", VNull)]))
           {| data := VObj [("a", VNull)];
              rule := {| rule_field := "a"; rule_condition := Cond.contains;
                         rule_condition_value := VStr "x" |} |}
           VNull);
    reflexivity.
Defined.

Lemma contains_index_out_of_range_witness :
  containsValidator (N := integer_numbers) (VArr [VStr "a"; VStr "b"]) (VStr "a")
    (Some (Some 2%Z)) = Returns false.
Proof.
  apply (proj1 (proj2 (@contains_index_out_of_range example_runtime))
           [VStr "a"; VStr "b"] (VStr "a") 2%Z).
  right. simpl. lia.
Defined.

Lemma contains_is_substring_witness :
  exists c : ValidationCompleted,
    validate (R := example_runtime)
      (request "x" "contains" (VStr "ell") (VStr "hello")) = Returns (Completed c) /\
    field_value c = VStr "hello" /\
    (error c = false <-> exists pre post, "hello" = pre ++ "ell" ++ post) /\
    ("ell" = "" -> error c = false).
Proof.
  apply (@contains_is_substring example_runtime
           (request "x" "contains" (VStr "ell") (VStr "hello"))
           {| data := VStr "hello";
              rule := {| rule_field := "x"; rule_condition := Cond.contains;
                         rule_condition_value := VStr "ell" |} |}
           "hello" "ell");
    reflexivity.
Defined.

Lemma unordered_fails_both_witness :
  conditions (N := integer_numbers) Cond.gt (VStr "abc") VNull None = Returns false /\
  conditions (N := integer_numbers) Cond.gte (VStr "abc") VNull None = Returns false.
Proof.
  apply (@unordered_fails_both example_runtime (VStr "abc") VNull None).
  reflexivity.
Defined.

Lemma gt_implies_gte_witness :
  conditions (N := integer_numbers) Cond.gte (VStr "b") (VStr "a") None = Returns true.
Proof.
  apply (@gt_implies_gte example_runtime (VStr "b") (VStr "a") None).
  - intros a b H. apply Z.ltb_ge. apply Z.ltb_lt in H. lia.
  - reflexivity.
Defined.

Lemma route_success_iff_witness :
  (200 = 200 <->
   exists c, validate (R := example_runtime)
               (request "a" "eq" (VStr "x") (VObj [("a", VStr "x")])) =
             Returns (Completed c) /\ error c = false) /\
  (200 = 200 <-> Server.status_success = Server.status_success) /\
  (forall c,
     Some {| error := false; field := "a"; field_value := VStr "x";
             condition := Cond.eq; condition_value := VStr "x" |} = Some c <->
     validate (request "a" "eq" (VStr "x") (VObj [("a", VStr "x")])) =
     Returns (Completed c)) /\
  (200 = 200 \/ 200 = 400 \/ 200 = 500).
Proof.
  apply (@route_success_iff example_runtime (fun _ => "TypeError")
           (request "a" "eq" (VStr "x") (VObj [("a", VStr "x")]))
           {| Server.http_status := 200;
              Server.payload :=
                {| Server.message := "field a successfully validated.";
                   Server.status := Server.status_success;
                   Server.data :=
                     Some {| error := false; field := "a"; field_value := VStr "x";
                             condition := Cond.eq; condition_value := VStr "x" |} |} |}).
  reflexivity.
Defined.

Lemma route_answers_witness :
  Server.route (R := example_runtime) (fun _ => "TypeError") (VObj []) =
  Some {| Server.http_status := 400;
          Server.payload :=
            {| Server.message := "rule is required.";
               Server.status := Server.status_error;
               Server.data := None |} |}.
Proof.
  apply (proj1 (proj2 (@route_answers example_runtime (fun _ => "TypeError") (VObj [])))
           (abort missing_required_field "rule is required.")
           [abort missing_required_field "data is required."]);
    reflexivity.
Defined.

Lemma contains_on_scalar_answered_500_witness :
  Server.route (R := example_runtime) (fun _ => "value.includes is not a function")
    (request "a" "contains" (VBool true) (VObj [("a", VBool true)])) =
  Some {| Server.http_status := 500;
          Server.payload :=
            {| Server.message := "value.includes is not a function";
               Server.status := Server.status_error;
               Server.data := None |} |}.
Proof.
  apply (@contains_on_scalar_answered_500 example_runtime
           (fun _ => "value.includes is not a function")
           (request "a" "contains" (VBool true) (VObj [("a", VBool true)]))
           {| data := VObj [("a", VBool true)];
              rule := {| rule_field := "a"; rule_condition := Cond.contains;
                         rule_condition_value := VBool true |} |}
           (VBool true));
    reflexivity.
Defined.

Lemma non_object_answered_as_syntax_error_witness :
  Server.route (R := example_runtime) (fun _ => "TypeError") (VStr "'") =
  Some (Server.errorHandler
          (Server.Error {| Server.is_syntax_error := true;
                           Server.code := None;
                           Server.statusCode := Some 400;
                           Server.error_message := "Unexpected token" |})).
Proof.
  apply (@non_object_answered_as_syntax_error example_runtime (fun _ => "TypeError")
           (VStr "'")
           {| Server.is_syntax_error := true;
              Server.code := None;
              Server.statusCode := Some 400;
              Server.error_message := "Unexpected token" |}).
  - reflexivity.
  - left. reflexivity.
  - reflexivity.
Defined.

Lemma eq_implies_gte_witness :
  conditions (N := integer_numbers) Cond.gte (VBool true) (VBool true) None =
  Returns true.
Proof.
  apply (@eq_implies_gte example_runtime (VBool true) (VBool true) None).
  - intro a. apply Z.ltb_irrefl.
  - intros a b H. apply Z.eqb_eq in H. subst. apply Z.ltb_irrefl.
  - reflexivity.
Defined.
